(** * tap-jira: the stream classes of [tap_jira/streams.py]

    A shallow embedding of the behavioural methods of the stream classes
    (pagination token, query parameters, record post-processing, context
    derivation, response validation and the project/role fan-out), and the
    properties the specification states about them.

    Python values are embedded as the JSON-shaped type [pyval]; a [dict] with
    string keys is a [gmap string pyval]; an exception is the [Raise] branch
    of the error monad [result].  The schema declarations of the classes
    carry no behaviour and are not embedded. *)

From Stdlib Require Import ZArith String List.
From stdpp Require Import gmap strings list fin_maps.

#[local] Set Warnings "-register-all".
#[local] Open Scope Z_scope.

(** ** Python values, exceptions and the builtins the methods use *)

Module Py.

(** A parsed JSON document, as [response.json()] and the records have it.
    Non-integral numbers never reach an operation of the embedded methods
    other than being carried along, and are not represented. *)
Inductive pyval : Type :=
  | PNone
  | PBool (b : bool)
  | PInt (n : Z)
  | PStr (s : string)
  | PList (l : list pyval)
  | PDict (d : gmap string pyval).

Inductive pyexc : Type :=
  | KeyError (k : string)
  | TypeError
  | AttributeError
  | JSONDecodeError
  | FatalAPIError
  | RetriableAPIError.

Inductive result (A : Type) : Type :=
  | Ok (a : A)
  | Raise (e : pyexc).
Arguments Ok {A} a.
Arguments Raise {A} e.

Definition bind {A B} (m : result A) (k : A -> result B) : result B :=
  match m with
  | Ok a => k a
  | Raise e => Raise e
  end.

Definition raises {A} (m : result A) : Prop :=
  match m with
  | Ok _ => False
  | Raise _ => True
  end.

(** The value of a computation that returned. *)
Definition to_option {A} (m : result A) : option A :=
  match m with
  | Ok a => Some a
  | Raise _ => None
  end.

(** [bool(v)] *)
Definition truthy (v : pyval) : bool :=
  match v with
  | PNone => false
  | PBool b => b
  | PInt n => negb (n =? 0)
  | PStr s => negb (String.eqb s "")
  | PList l => negb (Nat.eqb (length l) 0)
  | PDict d => negb (Nat.eqb (size d) 0)
  end.

(** [len(v)] *)
Definition len (v : pyval) : result Z :=
  match v with
  | PList l => Ok (Z.of_nat (length l))
  | PDict d => Ok (Z.of_nat (size d))
  | PStr s => Ok (Z.of_nat (String.length s))
  | _ => Raise TypeError
  end.

(** [d[k]] on a dict *)
Definition getitem (d : gmap string pyval) (k : string) : result pyval :=
  match d !! k with
  | Some v => Ok v
  | None => Raise (KeyError k)
  end.

(** [d.get(k, dflt)] on a dict *)
Definition get (d : gmap string pyval) (k : string) (dflt : pyval) : pyval :=
  match d !! k with
  | Some v => v
  | None => dflt
  end.

(** [v.get(k, dflt)] on an arbitrary value: only a dict has the method. *)
Definition get_attr (v : pyval) (k : string) (dflt : pyval) : result pyval :=
  match v with
  | PDict d => Ok (get d k dflt)
  | _ => Raise AttributeError
  end.

(** [v.pop(k, dflt)] on an arbitrary value, returning the popped value and
    the object as the call leaves it.  A dict gives up its entry (or the
    default); [list.pop] takes at most one argument; no other value has
    the method. *)
Definition pop_attr (v : pyval) (k : string) (dflt : pyval)
    : result (pyval * pyval) :=
  match v with
  | PDict d => Ok (get d k dflt, PDict (delete k d))
  | PList _ => Raise TypeError
  | _ => Raise AttributeError
  end.

(** [v == PStr s]: a string equals only the same string. *)
Definition eq_str (s : string) (v : pyval) : bool :=
  match v with
  | PStr s' => String.eqb s s'
  | _ => false
  end.

(** [needle in hay] for two strings. *)
Fixpoint is_substring (needle hay : string) : bool :=
  String.prefix needle hay ||
  match hay with
  | EmptyString => false
  | String _ rest => is_substring needle rest
  end.

(** [PStr s in v]: element of a list, key of a dict, substring of a
    string; any other right operand is not iterable. *)
Definition contains_str (s : string) (v : pyval) : result bool :=
  match v with
  | PList l => Ok (existsb (eq_str s) l)
  | PDict d => Ok (bool_decide (is_Some (d !! s)))
  | PStr hay => Ok (is_substring s hay)
  | _ => Raise TypeError
  end.

(** What the methods see of a [requests.Response]: the status code and
    the body; [body = None] is a body that [response.json()] cannot
    decode. *)
Record Response : Type := mkResponse {
  status_code : Z;
  body : option pyval
}.

Definition json (r : Response) : result pyval :=
  match body r with
  | Some v => Ok v
  | None => Raise JSONDecodeError
  end.

End Py.
Export Py.

Notation "'let!' x ':=' m 'in' k" := (Py.bind m (fun x => k))
  (at level 10, x name, m at level 100, k at level 200).

(** ** UsersStream *)

Module UsersStream.

Definition get_next_page_token (response : Response)
    (previous_token : option Z) : result (option Z) :=
  let! resp_json := json response in
  let previous_token :=
    match previous_token with
    | None => 0
    | Some t => t
    end in
  let page := resp_json in
  let! n := len page in
  if n =? 0 then Ok None
  else Ok (Some (previous_token + n)).

End UsersStream.

(** ** JiraStream: what the stream classes inherit *)

Module JiraStream.

(** Modelled from the spec: [JiraStream.validate_response], the default
    validation every stream inherits; [tap_jira/client.py] and the SDK
    class it extends are not among the sources.  Sections 6 and 7: the
    core treats any status outside 2xx, the documented benign case apart,
    as a transport failure that is raised to the caller. *)
Definition validate_response (response : Response) : result unit :=
  if (200 <=? status_code response) && (status_code response <? 300)
  then Ok tt
  else Raise FatalAPIError.

End JiraStream.

(** ** IssueStream *)

Module IssueStream.

(** The settings [get_url_params] reads from [self.config], at the types
    the tap's settings schema declares for them; [None] is a key that is
    not set. *)
Record PageSize : Type := mkPageSize {
  ps_issues : option Z
}.

Record IssuesOptions : Type := mkIssuesOptions {
  io_jql : option string
}.

Record StreamOptions : Type := mkStreamOptions {
  so_issues : option IssuesOptions
}.

Record Config : Type := mkConfig {
  start_date : option string;
  end_date : option string;
  page_size : option PageSize;
  stream_options : option StreamOptions
}.

Definition replication_key : pyval := PStr "id".

(** A pagination token as a Python value, for its truth test. *)
Definition token_value (next_page_token : option Z) : pyval :=
  match next_page_token with
  | None => PNone
  | Some n => PInt n
  end.

(** [self.config.get("stream_options", {}).get("issues", {}).get("jql")] *)
Definition config_jql (config : Config) : option string :=
  io_jql (default (mkIssuesOptions None)
            (so_issues (default (mkStreamOptions None)
                          (stream_options config)))).

Definition get_url_params (config : Config)
    (context : option (gmap string pyval))
    (next_page_token : option Z) : gmap string pyval :=
  let params : gmap string pyval := ∅ in
  let params :=
    <["maxResults" :=
        PInt (default 10 (ps_issues (default (mkPageSize None)
                                       (page_size config))))]> params in
  let jql : list string := [] in
  let params :=
    if truthy (token_value next_page_token)
    then <["startAt" := token_value next_page_token]> params
    else params in
  let params :=
    if truthy replication_key
    then <["order_by" := replication_key]> (<["sort" := PStr "asc"]> params)
    else params in
  let jql :=
    match start_date config with
    | Some start_date =>
        jql ++ ["(created>='" +:+ start_date +:+ "' or updated>='"
                +:+ start_date +:+ "')"]
    | None => jql
    end in
  let jql :=
    match end_date config with
    | Some end_date =>
        jql ++ ["(created<'" +:+ end_date +:+ "' or updated<'"
                +:+ end_date +:+ "')"]
    | None => jql
    end in
  let jql :=
    match config_jql config with
    | Some base_jql =>
        if truthy (PStr base_jql)
        then jql ++ ["(" +:+ base_jql +:+ ")"]
        else jql
    | None => jql
    end in
  let params :=
    if truthy (PList (PStr <$> jql))
    then <["jql" := PStr (String.concat " and " jql)]> params
    else params in
  params.

(** [row.get("fields", {}).pop("created", None)] pops from the sub-object
    of the row, which the pop mutates in place, or from a temporary empty
    dict when the row has no "fields". *)
Definition post_process (row : gmap string pyval)
    (context : option (gmap string pyval)) : result (gmap string pyval) :=
  let! popped := pop_attr (get row "fields" (PDict ∅)) "created" PNone in
  let created := fst popped in
  let row :=
    match row !! "fields" with
    | Some _ => <["fields" := snd popped]> row
    | None => row
    end in
  let row := <["created" := created]> row in
  Ok row.

Definition get_child_context (record : gmap string pyval)
    (context : option (gmap string pyval)) : result (gmap string pyval) :=
  let! id := getitem record "id" in
  Ok {[ "issue_id" := id ]}.

End IssueStream.

(** ** BoardStream *)

Module BoardStream.

Definition get_child_context (record : gmap string pyval)
    (context : option (gmap string pyval)) : result (gmap string pyval) :=
  let! id := getitem record "id" in
  Ok {[ "board_id" := id ]}.

End BoardStream.

(** ** SprintStream *)

Module SprintStream.

Definition post_process (row : gmap string pyval)
    (context : option (gmap string pyval)) : result (gmap string pyval) :=
  match context with
  | Some ctx =>
      if truthy (PDict ctx)
      then
        let! board_id := getitem ctx "board_id" in
        Ok (<["boardId" := board_id]> row)
      else Ok row
  | None => Ok row
  end.

(** [get_records] is a generator: it emits a sequence of records and, if
    a step raises, ends with that exception after what it has emitted.
    It calls [self.post_process], so the loop is stated for any
    post-processing step; [Ok None] is a suppressed record. *)
Section generator.
Variable self_post_process :
  gmap string pyval -> option (gmap string pyval) ->
  result (option (gmap string pyval)).

Fixpoint get_records_with (request_records : list (gmap string pyval))
    (context : option (gmap string pyval))
    : list (gmap string pyval) * option pyexc :=
  match request_records with
  | [] => ([], None)
  | record :: rest =>
      match self_post_process record context with
      | Raise e => ([], Some e)
      | Ok None => get_records_with rest context
      | Ok (Some transformed_record) =>
          let out := get_records_with rest context in
          (transformed_record :: fst out, snd out)
      end
  end.

(** What a step that returns hands to the loop: the record to emit, or
    nothing for a suppressed record. *)
Definition returned (record : gmap string pyval)
    (context : option (gmap string pyval)) : option (gmap string pyval) :=
  match self_post_process record context with
  | Ok r => r
  | Raise _ => None
  end.
End generator.

(** The method on a [SprintStream] instance, whose [post_process] is the
    one above. *)
Definition get_records (request_records : list (gmap string pyval))
    (context : option (gmap string pyval))
    : list (gmap string pyval) * option pyexc :=
  get_records_with
    (fun row ctx => let! r := post_process row ctx in Ok (Some r))
    request_records context.

Definition validate_response (response : Response) : result unit :=
  let! benign :=
    if status_code response =? 400
    then
      let! doc := json response in
      let! messages := get_attr doc "errorMessages" (PList []) in
      contains_str "The board does not support sprints" messages
    else Ok false in
  if benign then Ok tt
  else JiraStream.validate_response response.

End SprintStream.

(** ** ProjectRoleActorStream *)

Module ProjectRoleActorStream.

(** The requests behind the method change and depend on the world outside
    the tap, so each is a transformer of a world state that may raise. *)
Section fan_out.
Context {World : Type}.
(** [list(ProjectRoleStream(self._tap).get_records(context))] *)
Variable project_role_get_records :
  World -> result (list (gmap string pyval)) * World.
(** [list(project.get_records(context))] *)
Variable project_get_records :
  World -> result (list (gmap string pyval)) * World.
(** The body of the [try]: the one-off stream class for [pid] and
    [role], its instance, and [list(instance.get_records(context))]. *)
Variable project_role_actor_get_records :
  pyval -> pyval -> World -> result (list (gmap string pyval)) * World.

(** [[record.get("id") for record in records]] *)
Definition ids (records : list (gmap string pyval)) : list pyval :=
  (fun record => get record "id" PNone) <$> records.

(** One pass through the [try]/[except: pass] of the inner loop. *)
Definition try_fetch (pid role : pyval)
    (st : World * list (list (gmap string pyval)))
    : World * list (list (gmap string pyval)) :=
  match project_role_actor_get_records pid role (fst st) with
  | (Ok records, w) => (w, snd st ++ [records])
  | (Raise _, w) => (w, snd st)
  end.

Definition for_role (role_id : list pyval) (pid : pyval)
    (st : World * list (list (gmap string pyval)))
    : World * list (list (gmap string pyval)) :=
  foldl (fun st role => try_fetch pid role st) st role_id.

Definition for_pid (project_id role_id : list pyval)
    (st : World * list (list (gmap string pyval)))
    : World * list (list (gmap string pyval)) :=
  foldl (fun st pid => for_role role_id pid st) st project_id.

(** [functools.reduce(operator.iadd, role_actor_records, [])] *)
Definition reduce_iadd (role_actor_records : list (list (gmap string pyval)))
    : list (gmap string pyval) :=
  foldl (fun acc records => acc ++ records) [] role_actor_records.

Definition get_records (w : World)
    : result (list (gmap string pyval)) * World :=
  let role_actor_records : list (list (gmap string pyval)) := [] in
  match project_role_get_records w with
  | (Raise e, w) => (Raise e, w)
  | (Ok role_records, w) =>
      let role_id := ids role_records in
      match project_get_records w with
      | (Raise e, w) => (Raise e, w)
      | (Ok project_records, w) =>
          let project_id := ids project_records in
          let st := for_pid project_id role_id (w, role_actor_records) in
          (Ok (reduce_iadd (snd st)), fst st)
      end
  end.

(** The fan-out as the specification words it: one sub-fetch per
    combination, in the order of the given list of combinations, each
    on the world its predecessor left; the outcome of each, returned or
    raised, is recorded. *)
Fixpoint sub_fetches (combinations : list (pyval * pyval)) (w : World)
    : list (result (list (gmap string pyval))) * World :=
  match combinations with
  | [] => ([], w)
  | (pid, role) :: rest =>
      let out := project_role_actor_get_records pid role w in
      let outs := sub_fetches rest (snd out) in
      (fst out :: fst outs, snd outs)
  end.
End fan_out.

End ProjectRoleActorStream.

(** ** WorkflowSearchStream *)

Module WorkflowSearchStream.

Definition post_process (row : gmap string pyval)
    (context : option (gmap string pyval)) : result (gmap string pyval) :=
  match row !! "id" with
  | Some id_obj =>
      let row := delete "id" row in
      let! name := get_attr id_obj "name" PNone in
      let row := <["name" := name]> row in
      let! entity_id := get_attr id_obj "entityId" PNone in
      let row := <["entityId" := entity_id]> row in
      Ok row
  | None => Ok row
  end.

End WorkflowSearchStream.

(** ** IssueWatchersStream *)

Module IssueWatchersStream.

Definition post_process (row : gmap string pyval)
    (context : gmap string pyval) : result (gmap string pyval) :=
  let! issue_id := getitem context "issue_id" in
  Ok (<["issueId" := issue_id]> row).

End IssueWatchersStream.

(** ** IssueChangeLogStream *)

Module IssueChangeLogStream.

Definition post_process (row : gmap string pyval)
    (context : gmap string pyval) : result (gmap string pyval) :=
  let! issue_id := getitem context "issue_id" in
  Ok (<["issueId" := issue_id]> row).

End IssueChangeLogStream.

(** ** IssueComments *)

Module IssueComments.

Definition post_process (row : gmap string pyval)
    (context : gmap string pyval) : result (gmap string pyval) :=
  let! issue_id := getitem context "issue_id" in
  Ok (<["issueId" := issue_id]> row).

End IssueComments.

(** ** Properties *)

(** C3. [UsersStream.get_next_page_token]: on a response whose body is the
    empty array the token is [None]; on a body that is an array of [n > 0]
    records the token is the previous token (0 when it is [None]) plus
    [n]. *)
Theorem users_next_page_token (response : Response) (l : list pyval)
    (previous_token : option Z) :
  body response = Some (PList l) ->
  (l = [] ->
     UsersStream.get_next_page_token response previous_token = Ok None) /\
  (l <> [] ->
     UsersStream.get_next_page_token response previous_token
     = Ok (Some (default 0 previous_token + Z.of_nat (length l)))).
Proof.
  intros Hbody.
  unfold UsersStream.get_next_page_token, json. rewrite Hbody. simpl.
  split.
  - intros ->. reflexivity.
  - intros Hne. destruct l as [|x l']; [congruence|].
    replace (Z.of_nat (length (x :: l')) =? 0) with false
      by (symmetry; apply Z.eqb_neq; simpl length; lia).
    destruct previous_token; reflexivity.
Qed.

Lemma users_next_page_token_witness :
  UsersStream.get_next_page_token (mkResponse 200 (Some (PList []))) (Some 50)
  = Ok None /\
  UsersStream.get_next_page_token
    (mkResponse 200 (Some (PList [PDict ∅; PDict ∅; PDict ∅]))) None
  = Ok (Some 3).
Proof.
  split.
  - apply (users_next_page_token (mkResponse 200 (Some (PList []))) []
             (Some 50)); reflexivity.
  - apply (users_next_page_token
             (mkResponse 200 (Some (PList [PDict ∅; PDict ∅; PDict ∅])))
             [PDict ∅; PDict ∅; PDict ∅] None); [reflexivity|discriminate].
Defined.

(** *** Record post-processing *)

Section post_process_facts.
Implicit Types (row fields ctx : gmap string pyval) (v : pyval).

(** What [IssueStream.post_process] returns on a row whose "fields" is a
    sub-object. *)
Lemma issue_post_process_fields row context fields :
  row !! "fields" = Some (PDict fields) ->
  IssueStream.post_process row context
  = Ok (<["created" := get fields "created" PNone]>
          (<["fields" := PDict (delete "created" fields)]> row)).
Proof.
  intros Hf. unfold IssueStream.post_process, get. rewrite Hf. reflexivity.
Qed.

(** What it returns on a row with no "fields" at all. *)
Lemma issue_post_process_no_fields row context :
  row !! "fields" = None ->
  IssueStream.post_process row context = Ok (<["created" := PNone]> row).
Proof.
  intros Hf. unfold IssueStream.post_process, get. rewrite Hf. reflexivity.
Qed.

(** On a row with nothing left to hoist, only the top-level "created" is
    written, with null. *)
Lemma issue_post_process_nothing_to_hoist row context :
  (row !! "fields" = None \/
   exists fields, row !! "fields" = Some (PDict fields) /\
                  fields !! "created" = None) ->
  IssueStream.post_process row context = Ok (<["created" := PNone]> row).
Proof.
  intros [Hf | (fields & Hf & Hc)].
  - by apply issue_post_process_no_fields.
  - rewrite (issue_post_process_fields _ _ _ Hf). unfold get. rewrite Hc.
    rewrite delete_id by done. by rewrite (insert_id row "fields").
Qed.

Lemma workflow_search_post_process_no_id row context :
  row !! "id" = None ->
  WorkflowSearchStream.post_process row context = Ok row.
Proof.
  intros Hid. unfold WorkflowSearchStream.post_process. by rewrite Hid.
Qed.

Lemma sprint_post_process_board row ctx v :
  ctx !! "board_id" = Some v ->
  SprintStream.post_process row (Some ctx) = Ok (<["boardId" := v]> row).
Proof.
  intros Hb. unfold SprintStream.post_process, getitem. rewrite Hb.
  assert (size ctx <> 0%nat) as Hsz.
  { intros Hz. apply map_size_empty_iff in Hz. subst ctx.
    by rewrite lookup_empty in Hb. }
  simpl. destruct (size ctx); [done|reflexivity].
Qed.

Lemma issue_watchers_post_process_issue row ctx v :
  ctx !! "issue_id" = Some v ->
  IssueWatchersStream.post_process row ctx = Ok (<["issueId" := v]> row).
Proof.
  intros Hi. unfold IssueWatchersStream.post_process, getitem.
  by rewrite Hi.
Qed.

End post_process_facts.

(** C6. [IssueStream.post_process] on a record whose "fields" sub-object
    has a "created" entry [v]: the returned record has the top-level field
    "created" equal to [v], its "fields" sub-object no longer has "created",
    and every other field, at the top level and inside "fields", is as it
    was. *)
Theorem issue_post_process_hoists_created
    (row fields : gmap string pyval) (context : option (gmap string pyval))
    (v : pyval) :
  row !! "fields" = Some (PDict fields) ->
  fields !! "created" = Some v ->
  exists row' fields',
    IssueStream.post_process row context = Ok row' /\
    row' !! "created" = Some v /\
    row' !! "fields" = Some (PDict fields') /\
    fields' !! "created" = None /\
    (forall k, k <> "created" -> fields' !! k = fields !! k) /\
    (forall k, k <> "created" -> k <> "fields" -> row' !! k = row !! k).
Proof.
  intros Hf Hc.
  exists (<["created" := v]> (<["fields" := PDict (delete "created" fields)]> row)),
         (delete "created" fields).
  split.
  { rewrite (issue_post_process_fields _ _ _ Hf). unfold get. by rewrite Hc. }
  split; [by rewrite lookup_insert_eq|].
  split; [by rewrite lookup_insert_ne, lookup_insert_eq|].
  split; [by rewrite lookup_delete_eq|].
  split.
  - intros k Hk. by rewrite lookup_delete_ne.
  - intros k Hk1 Hk2. by rewrite !lookup_insert_ne.
Qed.

Lemma issue_post_process_hoists_created_witness :
  exists row' fields',
    IssueStream.post_process
      {[ "id" := PStr "10001";
         "fields" := PDict {[ "created" := PStr "2024-01-01T00:00:00";
                              "summary" := PStr "s" ]} ]} None
    = Ok row' /\
    row' !! "created" = Some (PStr "2024-01-01T00:00:00") /\
    row' !! "fields" = Some (PDict fields') /\
    fields' !! "created" = None /\
    (forall k, k <> "created" ->
       fields' !! k
       = ({[ "created" := PStr "2024-01-01T00:00:00";
             "summary" := PStr "s" ]} : gmap string pyval) !! k) /\
    (forall k, k <> "created" -> k <> "fields" ->
       row' !! k
       = ({[ "id" := PStr "10001";
             "fields" := PDict {[ "created" := PStr "2024-01-01T00:00:00";
                                  "summary" := PStr "s" ]} ]}
            : gmap string pyval) !! k).
Proof.
  apply (issue_post_process_hoists_created
           {[ "id" := PStr "10001";
              "fields" := PDict {[ "created" := PStr "2024-01-01T00:00:00";
                                   "summary" := PStr "s" ]} ]}
           {[ "created" := PStr "2024-01-01T00:00:00";
              "summary" := PStr "s" ]}
           None (PStr "2024-01-01T00:00:00")); reflexivity.
Defined.

(** C10, as stated, fails when the "fields" entry is present but is not an
    object: in the record below "fields" is null, so it is present and has
    no "created" entry, and the call raises [AttributeError] instead of
    returning a record with a null "created". *)
Lemma issue_post_process_null_fields_counterexample :
  ({[ "id" := PStr "10001"; "fields" := PNone ]} : gmap string pyval)
    !! "fields" = Some PNone /\
  IssueStream.post_process {[ "id" := PStr "10001"; "fields" := PNone ]} None
  = Raise AttributeError /\
  ~ (exists row',
       IssueStream.post_process
         {[ "id" := PStr "10001"; "fields" := PNone ]} None = Ok row').
Proof.
  split; [reflexivity|]. split; [reflexivity|].
  intros [row' Hret]. vm_compute in Hret. discriminate Hret.
Qed.

(** C10, amended.  [IssueStream.post_process] on a record without the
    hoisted field: when the "fields" entry is absent, or is an object with
    no "created" entry, the call does not raise and the returned record has
    a top-level "created" whose value is null; and whenever the call
    returns, the returned record has a top-level "created" key. *)
Theorem issue_post_process_total_without_created
    (row : gmap string pyval) (context : option (gmap string pyval)) :
  (row !! "fields" = None \/
   exists fields, row !! "fields" = Some (PDict fields) /\
                  fields !! "created" = None) ->
  (exists row', IssueStream.post_process row context = Ok row' /\
                row' !! "created" = Some PNone) /\
  (forall row0 context0 row0',
     IssueStream.post_process row0 context0 = Ok row0' ->
     is_Some (row0' !! "created")).
Proof.
  intros Hrow. split.
  - exists (<["created" := PNone]> row). split.
    + by apply issue_post_process_nothing_to_hoist.
    + by rewrite lookup_insert_eq.
  - intros row0 context0 row0'. unfold IssueStream.post_process.
    destruct (pop_attr _ _ _) as [popped|e]; simpl; [|discriminate].
    intros [= <-]. rewrite lookup_insert_eq. by eexists.
Qed.

Lemma issue_post_process_total_without_created_witness :
  (exists row',
     IssueStream.post_process {[ "id" := PStr "10001" ]} None = Ok row' /\
     row' !! "created" = Some PNone) /\
  (exists row',
     IssueStream.post_process
       {[ "id" := PStr "10001"; "fields" := PDict {[ "summary" := PStr "s" ]} ]}
       None = Ok row' /\
     row' !! "created" = Some PNone).
Proof.
  split.
  - apply (issue_post_process_total_without_created
             {[ "id" := PStr "10001" ]} None).
    left. reflexivity.
  - apply (issue_post_process_total_without_created
             {[ "id" := PStr "10001";
                "fields" := PDict {[ "summary" := PStr "s" ]} ]} None).
    right. exists {[ "summary" := PStr "s" ]}. split; reflexivity.
Defined.

(** C8. The record normalizers of the child streams: with a board context,
    [SprintStream.post_process] returns the record with the top-level field
    "boardId" equal to [context["board_id"]]; with an issue context,
    [IssueWatchersStream.post_process] returns it with "issueId" equal to
    [context["issue_id"]]; in both, no field other than the injected one is
    changed. *)
Theorem child_post_process_injects_parent_id
    (row board_ctx issue_ctx : gmap string pyval) (board_id issue_id : pyval) :
  board_ctx !! "board_id" = Some board_id ->
  issue_ctx !! "issue_id" = Some issue_id ->
  (exists row',
     SprintStream.post_process row (Some board_ctx) = Ok row' /\
     row' !! "boardId" = Some board_id /\
     (forall k, k <> "boardId" -> row' !! k = row !! k)) /\
  (exists row',
     IssueWatchersStream.post_process row issue_ctx = Ok row' /\
     row' !! "issueId" = Some issue_id /\
     (forall k, k <> "issueId" -> row' !! k = row !! k)).
Proof.
  intros Hb Hi. split.
  - exists (<["boardId" := board_id]> row).
    split; [by apply sprint_post_process_board|].
    split; [by rewrite lookup_insert_eq|].
    intros k Hk. by rewrite lookup_insert_ne.
  - exists (<["issueId" := issue_id]> row).
    split; [by apply issue_watchers_post_process_issue|].
    split; [by rewrite lookup_insert_eq|].
    intros k Hk. by rewrite lookup_insert_ne.
Qed.

Lemma child_post_process_injects_parent_id_witness :
  (exists row',
     SprintStream.post_process {[ "id" := PInt 7; "boardId" := PNone ]}
       (Some {[ "board_id" := PInt 42 ]}) = Ok row' /\
     row' !! "boardId" = Some (PInt 42) /\
     (forall k, k <> "boardId" ->
        row' !! k
        = ({[ "id" := PInt 7; "boardId" := PNone ]} : gmap string pyval) !! k))
  /\
  (exists row',
     IssueWatchersStream.post_process {[ "id" := PInt 7; "boardId" := PNone ]}
       {[ "issue_id" := PStr "10001" ]} = Ok row' /\
     row' !! "issueId" = Some (PStr "10001") /\
     (forall k, k <> "issueId" ->
        row' !! k
        = ({[ "id" := PInt 7; "boardId" := PNone ]} : gmap string pyval) !! k)).
Proof.
  apply (child_post_process_injects_parent_id
           {[ "id" := PInt 7; "boardId" := PNone ]}
           {[ "board_id" := PInt 42 ]} {[ "issue_id" := PStr "10001" ]}
           (PInt 42) (PStr "10001")); reflexivity.
Defined.

(** *** Context derivation *)

(** C9. The context a parent record gives its child streams is the
    single-key mapping from the context key to the record's "id":
    [IssueStream.get_child_context] returns [{"issue_id": record["id"]}] and
    [BoardStream.get_child_context] returns [{"board_id": record["id"]}],
    with no other key. *)
Theorem get_child_context_single_key
    (record : gmap string pyval) (context : option (gmap string pyval))
    (id : pyval) :
  record !! "id" = Some id ->
  (exists ctx, IssueStream.get_child_context record context = Ok ctx /\
               ctx !! "issue_id" = Some id /\
               dom ctx = {[ "issue_id" ]}) /\
  (exists ctx, BoardStream.get_child_context record context = Ok ctx /\
               ctx !! "board_id" = Some id /\
               dom ctx = {[ "board_id" ]}).
Proof.
  intros Hid. split.
  - exists {[ "issue_id" := id ]}.
    unfold IssueStream.get_child_context, getitem. rewrite Hid. simpl.
    split; [done|]. split; [by rewrite lookup_singleton_eq|].
    by rewrite dom_singleton_L.
  - exists {[ "board_id" := id ]}.
    unfold BoardStream.get_child_context, getitem. rewrite Hid. simpl.
    split; [done|]. split; [by rewrite lookup_singleton_eq|].
    by rewrite dom_singleton_L.
Qed.

Lemma get_child_context_single_key_witness :
  (exists ctx,
     IssueStream.get_child_context
       {[ "id" := PStr "10001"; "key" := PStr "PRJ-1" ]} None = Ok ctx /\
     ctx !! "issue_id" = Some (PStr "10001") /\
     dom ctx = {[ "issue_id" ]}) /\
  (exists ctx,
     BoardStream.get_child_context
       {[ "id" := PStr "10001"; "key" := PStr "PRJ-1" ]} None = Ok ctx /\
     ctx !! "board_id" = Some (PStr "10001") /\
     dom ctx = {[ "board_id" ]}).
Proof.
  apply (get_child_context_single_key
           {[ "id" := PStr "10001"; "key" := PStr "PRJ-1" ]} None
           (PStr "10001")); reflexivity.
Defined.

(** *** Applying a normalizer to an already-normalized record *)

(** C5, as stated, fails for [IssueStream]: the record below is the result
    of a first application, its "fields" sub-object no longer contains
    "created", and a second application does not return it unchanged: the
    hoisted top-level "created" is overwritten with null. *)
Lemma issue_post_process_second_application_counterexample :
  IssueStream.post_process
    {[ "id" := PStr "10001";
       "fields" := PDict {[ "created" := PStr "2024-01-01T00:00:00" ]} ]} None
  = Ok {[ "id" := PStr "10001"; "fields" := PDict ∅;
          "created" := PStr "2024-01-01T00:00:00" ]} /\
  ({[ "id" := PStr "10001"; "fields" := PDict ∅;
      "created" := PStr "2024-01-01T00:00:00" ]} : gmap string pyval)
    !! "fields" = Some (PDict ∅) /\
  (∅ : gmap string pyval) !! "created" = None /\
  IssueStream.post_process
    {[ "id" := PStr "10001"; "fields" := PDict ∅;
       "created" := PStr "2024-01-01T00:00:00" ]} None
  <> Ok {[ "id" := PStr "10001"; "fields" := PDict ∅;
           "created" := PStr "2024-01-01T00:00:00" ]} /\
  IssueStream.post_process
    {[ "id" := PStr "10001"; "fields" := PDict ∅;
       "created" := PStr "2024-01-01T00:00:00" ]} None
  = Ok {[ "id" := PStr "10001"; "fields" := PDict ∅; "created" := PNone ]}.
Proof.
  split; [reflexivity|]. split; [reflexivity|]. split; [reflexivity|].
  split; [|reflexivity].
  intros Heq.
  apply (f_equal (fun r : result (gmap string pyval) =>
                    match r with
                    | Ok m => m !! "created"
                    | Raise _ => None
                    end)) in Heq.
  vm_compute in Heq. discriminate Heq.
Qed.

(** C5, amended.  For [WorkflowSearchStream] a record with no "id" key is
    returned unchanged.  For [IssueStream] a record whose "fields" is absent
    or is a sub-object that no longer contains "created" is returned with
    its top-level "created" set to null and every other field unchanged;
    when the record already has a top-level "created", the set of its
    top-level field names is unchanged, so that a second application
    duplicates no field. *)
Theorem post_process_on_normalized_record
    (issue_row workflow_row : gmap string pyval)
    (context : option (gmap string pyval)) :
  workflow_row !! "id" = None ->
  (issue_row !! "fields" = None \/
   exists fields, issue_row !! "fields" = Some (PDict fields) /\
                  fields !! "created" = None) ->
  WorkflowSearchStream.post_process workflow_row context = Ok workflow_row /\
  (exists row',
     IssueStream.post_process issue_row context = Ok row' /\
     row' !! "created" = Some PNone /\
     (forall k, k <> "created" -> row' !! k = issue_row !! k) /\
     (is_Some (issue_row !! "created") -> dom row' = dom issue_row)).
Proof.
  intros Hid Hnorm. split.
  - by apply workflow_search_post_process_no_id.
  - exists (<["created" := PNone]> issue_row).
    split; [by apply issue_post_process_nothing_to_hoist|].
    split; [by rewrite lookup_insert_eq|].
    split.
    + intros k Hk. by rewrite lookup_insert_ne.
    + intros Hc. apply elem_of_dom in Hc. rewrite dom_insert_L.
      apply subseteq_union_1_L. by apply singleton_subseteq_l.
Qed.

Lemma post_process_on_normalized_record_witness :
  WorkflowSearchStream.post_process
    {[ "name" := PStr "wf"; "entityId" := PStr "e1" ]} None
  = Ok {[ "name" := PStr "wf"; "entityId" := PStr "e1" ]} /\
  (exists row',
     IssueStream.post_process
       {[ "id" := PStr "10001"; "fields" := PDict ∅;
          "created" := PStr "2024-01-01T00:00:00" ]} None = Ok row' /\
     row' !! "created" = Some PNone /\
     (forall k, k <> "created" ->
        row' !! k
        = ({[ "id" := PStr "10001"; "fields" := PDict ∅;
              "created" := PStr "2024-01-01T00:00:00" ]}
             : gmap string pyval) !! k) /\
     (is_Some (({[ "id" := PStr "10001"; "fields" := PDict ∅;
                   "created" := PStr "2024-01-01T00:00:00" ]}
                  : gmap string pyval) !! "created") ->
      dom row'
      = dom ({[ "id" := PStr "10001"; "fields" := PDict ∅;
                "created" := PStr "2024-01-01T00:00:00" ]}
               : gmap string pyval))).
Proof.
  apply (post_process_on_normalized_record
           {[ "id" := PStr "10001"; "fields" := PDict ∅;
              "created" := PStr "2024-01-01T00:00:00" ]}
           {[ "name" := PStr "wf"; "entityId" := PStr "e1" ]} None).
  - reflexivity.
  - right. exists ∅. split; reflexivity.
Defined.

(** *** Emission of post-processed records *)

Section get_records_facts.
Variable pp :
  gmap string pyval -> option (gmap string pyval) ->
  result (option (gmap string pyval)).

Lemma get_records_with_returning records context :
  Forall (fun record => ~ raises (pp record context)) records ->
  SprintStream.get_records_with pp records context
  = (omap (fun record => SprintStream.returned pp record context) records,
     None).
Proof.
  induction 1 as [|record rest Hok _ IH]; [reflexivity|].
  simpl. unfold SprintStream.returned at 1.
  destruct (pp record context) as [[t|]|e]; simpl in *.
  - by rewrite IH.
  - exact IH.
  - by destruct Hok.
Qed.

(** A record whose step returns [None] adds nothing to the output. *)
Lemma get_records_with_suppressed record rest context :
  pp record context = Ok None ->
  SprintStream.get_records_with pp (record :: rest) context
  = SprintStream.get_records_with pp rest context.
Proof. intros Hnone. simpl. by rewrite Hnone. Qed.

End get_records_facts.

(** C7. [SprintStream.get_records] emits, in the order of the underlying
    request records, the post-processed record of exactly those records
    whose [post_process] result is not [None], and nothing for a record
    whose result is [None].  With the class's own [post_process], which
    suppresses nothing, every request record is emitted: as it is without a
    context, stamped with "boardId" under a board context. *)
Theorem sprint_get_records_emits_unsuppressed
    (pp : gmap string pyval -> option (gmap string pyval) ->
          result (option (gmap string pyval)))
    (request_records : list (gmap string pyval))
    (context : option (gmap string pyval))
    (board_ctx : gmap string pyval) (board_id : pyval) :
  Forall (fun record => ~ raises (pp record context)) request_records ->
  board_ctx !! "board_id" = Some board_id ->
  SprintStream.get_records_with pp request_records context
  = (omap (fun record => SprintStream.returned pp record context)
       request_records, None) /\
  (forall record rest,
     pp record context = Ok None ->
     SprintStream.get_records_with pp (record :: rest) context
     = SprintStream.get_records_with pp rest context) /\
  SprintStream.get_records request_records None = (request_records, None) /\
  SprintStream.get_records request_records (Some board_ctx)
  = ((fun record => <["boardId" := board_id]> record) <$> request_records,
     None).
Proof.
  intros Hok Hb.
  split; [by apply get_records_with_returning|].
  split; [intros; by apply get_records_with_suppressed|].
  unfold SprintStream.get_records. split.
  - induction request_records as [|record rest IH]; [reflexivity|].
    simpl. rewrite IH; [reflexivity|]. by inversion Hok.
  - clear Hok. induction request_records as [|record rest IH]; [reflexivity|].
    cbn [SprintStream.get_records_with]. cbn beta.
    rewrite (sprint_post_process_board _ _ _ Hb). simpl.
    by rewrite IH.
Qed.

Lemma sprint_get_records_emits_unsuppressed_witness :
  SprintStream.get_records_with
    (fun record _ =>
       match record !! "id" with
       | Some _ => Ok (Some record)
       | None => Ok None
       end)
    [ {[ "id" := PInt 1 ]}; {[ "name" := PStr "no id" ]}; {[ "id" := PInt 3 ]} ]
    None
  = ([ {[ "id" := PInt 1 ]}; {[ "id" := PInt 3 ]} ], None) /\
  SprintStream.get_records
    [ {[ "id" := PInt 1 ]}; {[ "name" := PStr "no id" ]}; {[ "id" := PInt 3 ]} ]
    (Some {[ "board_id" := PInt 42 ]})
  = ([ {[ "id" := PInt 1; "boardId" := PInt 42 ]};
       {[ "name" := PStr "no id"; "boardId" := PInt 42 ]};
       {[ "id" := PInt 3; "boardId" := PInt 42 ]} ], None).
Proof.
  assert (Forall
            (fun record : gmap string pyval =>
               ~ raises
                   (match record !! "id" with
                    | Some _ => Ok (Some record)
                    | None => Ok None
                    end))
            [ {[ "id" := PInt 1 ]}; {[ "name" := PStr "no id" ]};
              {[ "id" := PInt 3 ]} ]) as Hok.
  { repeat constructor; simpl; tauto. }
  assert (({[ "board_id" := PInt 42 ]} : gmap string pyval) !! "board_id"
          = Some (PInt 42)) as Hb by reflexivity.
  destruct (sprint_get_records_emits_unsuppressed
              (fun record _ =>
                 match record !! "id" with
                 | Some _ => Ok (Some record)
                 | None => Ok None
                 end)
              [ {[ "id" := PInt 1 ]}; {[ "name" := PStr "no id" ]};
                {[ "id" := PInt 3 ]} ]
              None {[ "board_id" := PInt 42 ]} (PInt 42) Hok Hb)
    as (Hgen & _ & _ & Hboard).
  split.
  - rewrite Hgen. reflexivity.
  - rewrite Hboard. reflexivity.
Defined.

(** *** Response validation *)

Section validate_response_facts.






End validate_response_facts.




(** *** Query parameters of the issue search *)

Section get_url_params_facts.
Implicit Types (config : IssueStream.Config) (s t u : string).

Lemma string_app_assoc s t u : (s +:+ t) +:+ u = s +:+ (t +:+ u).
Proof.
  induction s as [|c s IH]; [reflexivity|].
  change (String c ((s +:+ t) +:+ u) = String c (s +:+ (t +:+ u))).
  by rewrite IH.
Qed.

Lemma truthy_nonempty s : s <> "" -> truthy (PStr s) = true.
Proof. destruct s; [done|reflexivity]. Qed.

(** None of the parameters set before the filter is "jql". *)
Lemma get_url_params_no_clause (params : gmap string pyval) tok :
  params !! "jql" = None ->
  (if truthy IssueStream.replication_key
   then <["order_by" := IssueStream.replication_key]>
          (<["sort" := PStr "asc"]>
             (if truthy tok then <["startAt" := tok]> params else params))
   else if truthy tok then <["startAt" := tok]> params else params)
    !! "jql" = None.
Proof.
  intros Hp. cbn [IssueStream.replication_key truthy String.eqb negb].
  rewrite !lookup_insert_ne by done.
  destruct (truthy tok); [by rewrite lookup_insert_ne|done].
Qed.

End get_url_params_facts.

(** C1, as stated, fails for an empty raw fragment: with the lower bound
    and [stream_options.issues.jql] set to the empty string, the fragment is
    configured but is not parenthesized and ANDed in; the filter is the
    lower-bound clause alone. *)
Lemma issue_url_params_empty_fragment_counterexample :
  IssueStream.config_jql
    (IssueStream.mkConfig (Some "2024-01-01") None None
       (Some (IssueStream.mkStreamOptions
                (Some (IssueStream.mkIssuesOptions (Some ""))))))
  = Some "" /\
  IssueStream.get_url_params
    (IssueStream.mkConfig (Some "2024-01-01") None None
       (Some (IssueStream.mkStreamOptions
                (Some (IssueStream.mkIssuesOptions (Some ""))))))
    None None !! "jql"
  = Some (PStr "(created>='2024-01-01' or updated>='2024-01-01')") /\
  IssueStream.get_url_params
    (IssueStream.mkConfig (Some "2024-01-01") None None
       (Some (IssueStream.mkStreamOptions
                (Some (IssueStream.mkIssuesOptions (Some ""))))))
    None None !! "jql"
  <> Some (PStr "(created>='2024-01-01' or updated>='2024-01-01') and ()").
Proof.
  split; [reflexivity|]. split; [reflexivity|].
  vm_compute. discriminate.
Qed.

(** C1, amended.  The "jql" parameter [IssueStream.get_url_params] returns:
    with a lower bound [L], an upper bound [U] and no raw fragment it is
    exactly [(created>='L' or updated>='L') and (created<'U' or updated<'U')];
    with only the lower bound it is the first clause alone; a non-empty raw
    fragment [F] is parenthesized and ANDed in after the clauses of the
    bounds that are configured; with no bound and no fragment the "jql" key
    is absent.  A fragment set to the empty string counts as no fragment. *)
Theorem issue_url_params_jql_filter
    (config : IssueStream.Config) (context : option (gmap string pyval))
    (next_page_token : option Z) :
  (forall L U,
     IssueStream.start_date config = Some L ->
     IssueStream.end_date config = Some U ->
     (IssueStream.config_jql config = None \/
      IssueStream.config_jql config = Some "") ->
     IssueStream.get_url_params config context next_page_token !! "jql"
     = Some (PStr ("(created>='" +:+ L +:+ "' or updated>='" +:+ L
                   +:+ "') and (created<'" +:+ U +:+ "' or updated<'" +:+ U
                   +:+ "')"))) /\
  (forall L,
     IssueStream.start_date config = Some L ->
     IssueStream.end_date config = None ->
     (IssueStream.config_jql config = None \/
      IssueStream.config_jql config = Some "") ->
     IssueStream.get_url_params config context next_page_token !! "jql"
     = Some (PStr ("(created>='" +:+ L +:+ "' or updated>='" +:+ L
                   +:+ "')"))) /\
  (forall F,
     IssueStream.config_jql config = Some F ->
     F <> "" ->
     IssueStream.get_url_params config context next_page_token !! "jql"
     = Some (PStr (String.concat " and "
                     (match IssueStream.start_date config with
                      | Some L => ["(created>='" +:+ L +:+ "' or updated>='"
                                   +:+ L +:+ "')"]
                      | None => []
                      end ++
                      match IssueStream.end_date config with
                      | Some U => ["(created<'" +:+ U +:+ "' or updated<'"
                                   +:+ U +:+ "')"]
                      | None => []
                      end ++
                      ["(" +:+ F +:+ ")"])))) /\
  (IssueStream.start_date config = None ->
   IssueStream.end_date config = None ->
   (IssueStream.config_jql config = None \/
    IssueStream.config_jql config = Some "") ->
   IssueStream.get_url_params config context next_page_token !! "jql" = None).
Proof.
  unfold IssueStream.get_url_params.
  split; [|split; [|split]].
  - intros L U -> -> [-> | ->];
      cbn [truthy String.eqb negb app fmap list_fmap length Nat.eqb];
      rewrite lookup_insert_eq; do 2 f_equal;
      cbn [String.concat]; rewrite !string_app_assoc; reflexivity.
  - intros L -> -> [-> | ->];
      cbn [truthy String.eqb negb app fmap list_fmap length Nat.eqb];
      rewrite lookup_insert_eq; reflexivity.
  - intros F -> HF. rewrite (truthy_nonempty _ HF).
    destruct (IssueStream.start_date config) as [L|],
             (IssueStream.end_date config) as [U|];
      cbn [truthy String.eqb negb app fmap list_fmap length Nat.eqb];
      by rewrite lookup_insert_eq.
  - intros -> -> [-> | ->];
      cbn [truthy String.eqb negb app fmap list_fmap length Nat.eqb];
      apply get_url_params_no_clause; by rewrite lookup_insert_ne.
Qed.

Lemma issue_url_params_jql_filter_witness :
  IssueStream.get_url_params
    (IssueStream.mkConfig (Some "2024-01-01") (Some "2024-02-01") None None)
    None None !! "jql"
  = Some (PStr ("(created>='2024-01-01' or updated>='2024-01-01') and " +:+
                "(created<'2024-02-01' or updated<'2024-02-01')")) /\
  IssueStream.get_url_params
    (IssueStream.mkConfig (Some "2024-01-01") None None None)
    None (Some 50) !! "jql"
  = Some (PStr "(created>='2024-01-01' or updated>='2024-01-01')") /\
  IssueStream.get_url_params
    (IssueStream.mkConfig (Some "2024-01-01") None None
       (Some (IssueStream.mkStreamOptions
                (Some (IssueStream.mkIssuesOptions (Some "project = TAP"))))))
    None None !! "jql"
  = Some (PStr ("(created>='2024-01-01' or updated>='2024-01-01') and " +:+
                "(project = TAP)")) /\
  IssueStream.get_url_params
    (IssueStream.mkConfig None None (Some (IssueStream.mkPageSize (Some 100)))
       None)
    None None !! "jql"
  = None.
Proof.
  split; [|split; [|split]].
  - exact (proj1 (issue_url_params_jql_filter
                    (IssueStream.mkConfig (Some "2024-01-01")
                       (Some "2024-02-01") None None) None None)
             "2024-01-01" "2024-02-01" eq_refl eq_refl (or_introl eq_refl)).
  - exact (proj1 (proj2 (issue_url_params_jql_filter
                    (IssueStream.mkConfig (Some "2024-01-01") None None None)
                    None (Some 50)))
             "2024-01-01" eq_refl eq_refl (or_introl eq_refl)).
  - apply (proj1 (proj2 (proj2 (issue_url_params_jql_filter
                    (IssueStream.mkConfig (Some "2024-01-01") None None
                       (Some (IssueStream.mkStreamOptions
                                (Some (IssueStream.mkIssuesOptions
                                         (Some "project = TAP"))))))
                    None None)))
             "project = TAP"); [reflexivity|discriminate].
  - apply (proj2 (proj2 (proj2 (issue_url_params_jql_filter
                    (IssueStream.mkConfig None None
                       (Some (IssueStream.mkPageSize (Some 100))) None)
                    None None))));
      [reflexivity|reflexivity|left; reflexivity].
Defined.

(** *** The project and role fan-out *)

Section fan_out_facts.
Context {World : Type}.
Variable fetch :
  pyval -> pyval -> World -> result (list (gmap string pyval)) * World.
Implicit Types (w : World) (acc : list (list (gmap string pyval))).

Lemma reduce_iadd_concat acc :
  ProjectRoleActorStream.reduce_iadd acc = concat acc.
Proof.
  unfold ProjectRoleActorStream.reduce_iadd.
  enough (forall init, foldl (fun a r => a ++ r) init acc = init ++ concat acc)
    as Hgen by apply (Hgen []).
  induction acc as [|records acc IH]; intros init; simpl.
  - by rewrite app_nil_r.
  - by rewrite IH, app_assoc.
Qed.

Lemma sub_fetches_app (c1 c2 : list (pyval * pyval)) w :
  ProjectRoleActorStream.sub_fetches fetch (c1 ++ c2) w
  = (fst (ProjectRoleActorStream.sub_fetches fetch c1 w) ++
     fst (ProjectRoleActorStream.sub_fetches fetch c2
            (snd (ProjectRoleActorStream.sub_fetches fetch c1 w))),
     snd (ProjectRoleActorStream.sub_fetches fetch c2
            (snd (ProjectRoleActorStream.sub_fetches fetch c1 w)))).
Proof.
  revert w. induction c1 as [|[pid role] c1 IH]; intros w; simpl.
  - by destruct (ProjectRoleActorStream.sub_fetches fetch c2 w).
  - by rewrite IH.
Qed.

(** The inner loop runs the sub-fetches of one project over the roles and
    appends the record list of each one that returned. *)
Lemma for_role_sub_fetches role_id pid w acc :
  ProjectRoleActorStream.for_role fetch role_id pid (w, acc)
  = (snd (ProjectRoleActorStream.sub_fetches fetch (pair pid <$> role_id) w),
     acc ++ omap to_option
              (fst (ProjectRoleActorStream.sub_fetches fetch
                      (pair pid <$> role_id) w))).
Proof.
  unfold ProjectRoleActorStream.for_role.
  revert w acc. induction role_id as [|role role_id IH]; intros w acc.
  - simpl. by rewrite app_nil_r.
  - cbn [foldl fmap list_fmap ProjectRoleActorStream.sub_fetches fst snd].
    unfold ProjectRoleActorStream.try_fetch at 2. cbn [fst snd].
    destruct (fetch pid role w) as [[records|e] w1]; rewrite IH; cbn.
    + by rewrite <- app_assoc.
    + done.
Qed.

Lemma for_pid_sub_fetches project_id role_id w acc :
  ProjectRoleActorStream.for_pid fetch project_id role_id (w, acc)
  = (snd (ProjectRoleActorStream.sub_fetches fetch
            (list_prod project_id role_id) w),
     acc ++ omap to_option
              (fst (ProjectRoleActorStream.sub_fetches fetch
                      (list_prod project_id role_id) w))).
Proof.
  unfold ProjectRoleActorStream.for_pid.
  revert w acc. induction project_id as [|pid project_id IH]; intros w acc.
  - simpl. by rewrite app_nil_r.
  - cbn [foldl list_prod]. rewrite for_role_sub_fetches, IH.
    rewrite sub_fetches_app. cbn [fst snd].
    by rewrite omap_app, app_assoc.
Qed.

End fan_out_facts.

(** C4. [ProjectRoleActorStream.get_records]: given the materialized
    project records [A] and project-role records [B], the result is the
    concatenation, over the combinations of the Cartesian product taken
    with the projects in the outer loop and the roles in the inner loop, of
    the records of each sub-fetch that returned, each list in its own
    order.  A sub-fetch that raises contributes nothing and the remaining
    combinations are still fetched: there is one sub-fetch per combination.
    The lists are concatenated as they are, with no deduplication. *)
Theorem project_role_actor_get_records_fan_out {World : Type}
    (project_role_get_records project_get_records :
       World -> result (list (gmap string pyval)) * World)
    (project_role_actor_get_records :
       pyval -> pyval -> World -> result (list (gmap string pyval)) * World)
    (w w1 w2 : World) (A B : list (gmap string pyval)) :
  project_role_get_records w = (Ok B, w1) ->
  project_get_records w1 = (Ok A, w2) ->
  ProjectRoleActorStream.get_records
    project_role_get_records project_get_records
    project_role_actor_get_records w
  = (Ok (concat
           (omap to_option
              (fst (ProjectRoleActorStream.sub_fetches
                      project_role_actor_get_records
                      (list_prod (ProjectRoleActorStream.ids A)
                                 (ProjectRoleActorStream.ids B)) w2)))),
     snd (ProjectRoleActorStream.sub_fetches
            project_role_actor_get_records
            (list_prod (ProjectRoleActorStream.ids A)
                       (ProjectRoleActorStream.ids B)) w2)) /\
  length (fst (ProjectRoleActorStream.sub_fetches
                 project_role_actor_get_records
                 (list_prod (ProjectRoleActorStream.ids A)
                            (ProjectRoleActorStream.ids B)) w2))
  = (length A * length B)%nat.
Proof.
  intros HB HA. split.
  - unfold ProjectRoleActorStream.get_records. rewrite HB, HA.
    rewrite for_pid_sub_fetches. cbn [fst snd app].
    by rewrite reduce_iadd_concat.
  - enough (forall (c : list (pyval * pyval)) w0,
              length (fst (ProjectRoleActorStream.sub_fetches
                             project_role_actor_get_records c w0))
              = length c) as Hlen.
    { rewrite Hlen, length_prod. unfold ProjectRoleActorStream.ids.
      by rewrite !length_fmap. }
    induction c as [|[pid role] c IH]; intros w0; simpl; [done|].
    by rewrite IH.
Qed.

Lemma project_role_actor_get_records_fan_out_witness :
  ProjectRoleActorStream.get_records
    (fun requests : nat =>
       (Ok [ {[ "id" := PInt 10 ]}; {[ "id" := PInt 20 ]} ], S requests))
    (fun requests : nat =>
       (Ok [ {[ "id" := PStr "a1" ]}; {[ "id" := PStr "a2" ]} ], S requests))
    (fun pid role (requests : nat) =>
       match pid, role with
       | PStr "a1", PInt 20 => (Raise FatalAPIError, S requests)
       | _, _ => (Ok [ {[ "name" := PStr "Developers" ]} ], S requests)
       end)
    0%nat
  = (Ok [ {[ "name" := PStr "Developers" ]};
          {[ "name" := PStr "Developers" ]};
          {[ "name" := PStr "Developers" ]} ], 6%nat).
Proof.
  rewrite (proj1 (project_role_actor_get_records_fan_out
                    (fun requests : nat =>
                       (Ok [ {[ "id" := PInt 10 ]}; {[ "id" := PInt 20 ]} ],
                        S requests))
                    (fun requests : nat =>
                       (Ok [ {[ "id" := PStr "a1" ]}; {[ "id" := PStr "a2" ]} ],
                        S requests))
                    (fun pid role (requests : nat) =>
                       match pid, role with
                       | PStr "a1", PInt 20 => (Raise FatalAPIError, S requests)
                       | _, _ =>
                           (Ok [ {[ "name" := PStr "Developers" ]} ], S requests)
                       end)
                    0%nat 1%nat 2%nat
                    [ {[ "id" := PStr "a1" ]}; {[ "id" := PStr "a2" ]} ]
                    [ {[ "id" := PInt 10 ]}; {[ "id" := PInt 20 ]} ]
                    eq_refl eq_refl)).
  reflexivity.
Defined.

(** ** Further properties of the stream methods *)

(** *** Offsets of the users search *)

Section users_token_facts.

(** On a non-empty array the token is the previous offset plus the page
    length. *)
Lemma users_token_step status (l : list pyval) (previous_token : option Z) :
  l <> [] ->
  UsersStream.get_next_page_token (mkResponse status (Some (PList l)))
    previous_token
  = Ok (Some (default 0 previous_token + Z.of_nat (length l))).
Proof.
  intros Hne. unfold UsersStream.get_next_page_token, json. simpl.
  destruct l as [|x l']; [done|].
  replace (Z.of_nat (length (x :: l')) =? 0) with false
    by (symmetry; apply Z.eqb_neq; simpl length; lia).
  by destruct previous_token.
Qed.

Lemma len_nonneg (v : pyval) (n : Z) : len v = Ok n -> 0 <= n.
Proof. destruct v; simpl; intros [= <-] || discriminate; lia. Qed.

End users_token_facts.

(** X1. Feeding each token of [UsersStream.get_next_page_token] to the call
    for the next page, over a non-empty run of non-empty pages, ends with
    the offset equal to the starting offset (0 for [None]) plus the total
    number of records of the pages. *)
Theorem users_tokens_accumulate
    (pages : list (Z * list pyval)) (previous_token : option Z) :
  pages <> [] ->
  Forall (fun page => snd page <> []) pages ->
  foldl (fun acc page =>
           let! token := acc in
           UsersStream.get_next_page_token
             (mkResponse (fst page) (Some (PList (snd page)))) token)
        (Ok previous_token) pages
  = Ok (Some (default 0 previous_token
              + Z.of_nat (length (concat (snd <$> pages))))).
Proof.
  intros Hne Hall.
  assert (forall (ps : list (Z * list pyval)) (token : option Z),
            Forall (fun page => snd page <> []) ps ->
            ps <> [] \/ is_Some token ->
            foldl (fun acc page =>
                     let! token := acc in
                     UsersStream.get_next_page_token
                       (mkResponse (fst page) (Some (PList (snd page)))) token)
                  (Ok token) ps
            = Ok (Some (default 0 token
                        + Z.of_nat (length (concat (snd <$> ps)))))) as Hgen.
  { induction ps as [|page ps IH]; intros token Hps Hsome.
    - destruct Hsome as [|[t ->]]; [done|].
      cbn [foldl fmap list_fmap concat length default Z.of_nat].
      by rewrite Z.add_0_r.
    - inversion Hps as [|? ? Hpage Hrest]; subst.
      cbn [foldl]. cbn [bind]. rewrite (users_token_step _ _ _ Hpage).
      rewrite (IH _ Hrest) by (right; by eexists). do 2 f_equal.
      rewrite fmap_cons. cbn [concat]. rewrite length_app, Nat2Z.inj_add.
      destruct token; simpl; lia. }
  apply Hgen; [done|by left].
Qed.

Lemma users_tokens_accumulate_witness :
  foldl (fun acc page =>
           let! token := acc in
           UsersStream.get_next_page_token
             (mkResponse (fst page) (Some (PList (snd page)))) token)
        (Ok None)
        [ (200, [PDict ∅; PDict ∅]); (200, [PDict ∅; PDict ∅]);
          (200, [PDict ∅]) ]
  = Ok (Some 5).
Proof.
  apply (users_tokens_accumulate
           [ (200, [PDict ∅; PDict ∅]); (200, [PDict ∅; PDict ∅]);
             (200, [PDict ∅]) ] None); [discriminate|].
  repeat constructor; discriminate.
Defined.

(** X2. Whatever the body, a token [UsersStream.get_next_page_token]
    returns is strictly greater than the previous offset (0 for [None]), and
    it returns [None] only for a body of length 0. *)
Theorem users_token_advances
    (response : Response) (previous_token : option Z) :
  (forall t,
     UsersStream.get_next_page_token response previous_token = Ok (Some t) ->
     default 0 previous_token < t) /\
  (UsersStream.get_next_page_token response previous_token = Ok None ->
   exists v, body response = Some v /\ len v = Ok 0).
Proof.
  unfold UsersStream.get_next_page_token, json.
  destruct (body response) as [v|]; simpl; [|split; [intros t|]; discriminate].
  destruct (len v) as [n|e] eqn:Hlen; simpl;
    [|split; [intros t|]; discriminate].
  pose proof (len_nonneg _ _ Hlen) as Hn.
  destruct (n =? 0) eqn:Hz.
  - split; [intros t; discriminate|]. intros _. apply Z.eqb_eq in Hz.
    subst n. by exists v.
  - apply Z.eqb_neq in Hz. split; [|discriminate].
    intros t [= <-]. destruct previous_token; simpl; lia.
Qed.

Lemma users_token_advances_witness :
  default 0 (Some 50) < 52 /\
  exists v, body (mkResponse 200 (Some (PDict ∅))) = Some v /\ len v = Ok 0.
Proof.
  split.
  - apply (proj1 (users_token_advances
                    (mkResponse 200 (Some (PList [PNone; PNone]))) (Some 50))).
    reflexivity.
  - apply (proj2 (users_token_advances
                    (mkResponse 200 (Some (PDict ∅))) (Some 50))).
    reflexivity.
Defined.

(** X3. [UsersStream.get_next_page_token] raises, and gives no token, on a
    body that cannot be decoded as JSON ([JSONDecodeError]) and on a body
    that is null, a boolean or a number ([TypeError], these have no
    length). *)
Theorem users_token_raises_on_unsized_body
    (response : Response) (previous_token : option Z) :
  (body response = None ->
   UsersStream.get_next_page_token response previous_token
   = Raise JSONDecodeError) /\
  (body response = Some PNone \/
   (exists b, body response = Some (PBool b)) \/
   (exists n, body response = Some (PInt n)) ->
   UsersStream.get_next_page_token response previous_token
   = Raise TypeError).
Proof.
  unfold UsersStream.get_next_page_token, json. split.
  - by intros ->.
  - by intros [-> | [[b ->] | [n ->]]].
Qed.

Lemma users_token_raises_on_unsized_body_witness :
  UsersStream.get_next_page_token (mkResponse 502 None) (Some 50)
  = Raise JSONDecodeError /\
  UsersStream.get_next_page_token (mkResponse 200 (Some PNone)) None
  = Raise TypeError.
Proof.
  split.
  - apply (proj1 (users_token_raises_on_unsized_body
                    (mkResponse 502 None) (Some 50))).
    reflexivity.
  - apply (proj2 (users_token_raises_on_unsized_body
                    (mkResponse 200 (Some PNone)) None)).
    left. reflexivity.
Defined.

(** *** The other query parameters of the issue search *)

(** X4. [IssueStream.get_url_params] sets "startAt" exactly when the token
    is a non-zero offset, to that offset; without a token, and for the
    offset 0, the key is absent. *)
Theorem issue_url_params_start_at
    (config : IssueStream.Config) (context : option (gmap string pyval))
    (next_page_token : option Z) :
  IssueStream.get_url_params config context next_page_token !! "startAt"
  = match next_page_token with
    | Some n => if n =? 0 then None else Some (PInt n)
    | None => None
    end.
Proof.
  unfold IssueStream.get_url_params.
  cbn [IssueStream.replication_key truthy String.eqb negb].
  match goal with
  | |- (if ?c then _ else _) !! _ = _ => destruct c
  end; [rewrite lookup_insert_ne by done|];
    rewrite !lookup_insert_ne by done;
    (destruct next_page_token as [n|]; cbn [IssueStream.token_value truthy];
     [destruct (n =? 0); cbn [negb];
      [by rewrite lookup_insert_ne|by rewrite lookup_insert_eq]
     |by rewrite lookup_insert_ne]).
Qed.

(** X5. Whatever the configuration and the token, the parameters of
    [IssueStream.get_url_params] have "sort" = "asc" and "order_by" = "id",
    "maxResults" is the configured [page_size.issues], or 10 when
    [page_size] or its "issues" entry is not set, and no key other than
    "maxResults", "startAt", "sort", "order_by" and "jql" is ever set. *)
Theorem issue_url_params_fixed
    (config : IssueStream.Config) (context : option (gmap string pyval))
    (next_page_token : option Z) :
  IssueStream.get_url_params config context next_page_token !! "sort"
  = Some (PStr "asc") /\
  IssueStream.get_url_params config context next_page_token !! "order_by"
  = Some (PStr "id") /\
  IssueStream.get_url_params config context next_page_token !! "maxResults"
  = Some (PInt match IssueStream.page_size config with
               | Some (IssueStream.mkPageSize (Some n)) => n
               | _ => 10
               end) /\
  (forall k,
     k <> "maxResults" -> k <> "startAt" -> k <> "sort" ->
     k <> "order_by" -> k <> "jql" ->
     IssueStream.get_url_params config context next_page_token !! k = None).
Proof.
  unfold IssueStream.get_url_params.
  cbn [IssueStream.replication_key truthy String.eqb negb].
  assert (default 10
            (IssueStream.ps_issues
               (default (IssueStream.mkPageSize None)
                  (IssueStream.page_size config)))
          = match IssueStream.page_size config with
            | Some (IssueStream.mkPageSize (Some n)) => n
            | _ => 10
            end) as ->.
  { by destruct (IssueStream.page_size config) as [[[n|]]|]. }
  repeat split;
    try (intros k Hk1 Hk2 Hk3 Hk4 Hk5);
    (match goal with
     | |- (if ?c then _ else _) !! _ = _ => destruct c
     end; [rewrite lookup_insert_ne by done|]);
    destruct (truthy (IssueStream.token_value next_page_token));
    by simplify_map_eq.
Qed.

(** X6. With only the upper bound [U] configured the filter of
    [IssueStream.get_url_params] is the second clause alone; with both
    bounds and a non-empty fragment [F] it is the three clauses in the
    order lower bound, upper bound, fragment. *)
Theorem issue_url_params_clause_order
    (config : IssueStream.Config) (context : option (gmap string pyval))
    (next_page_token : option Z) :
  (forall U,
     IssueStream.start_date config = None ->
     IssueStream.end_date config = Some U ->
     (IssueStream.config_jql config = None \/
      IssueStream.config_jql config = Some "") ->
     IssueStream.get_url_params config context next_page_token !! "jql"
     = Some (PStr ("(created<'" +:+ U +:+ "' or updated<'" +:+ U +:+ "')")))
  /\
  (forall L U F,
     IssueStream.start_date config = Some L ->
     IssueStream.end_date config = Some U ->
     IssueStream.config_jql config = Some F ->
     F <> "" ->
     IssueStream.get_url_params config context next_page_token !! "jql"
     = Some (PStr ("(created>='" +:+ L +:+ "' or updated>='" +:+ L
                   +:+ "') and (created<'" +:+ U +:+ "' or updated<'" +:+ U
                   +:+ "') and (" +:+ F +:+ ")"))).
Proof.
  unfold IssueStream.get_url_params. split.
  - intros U -> -> [-> | ->];
      cbn [truthy String.eqb negb app fmap list_fmap length Nat.eqb];
      by rewrite lookup_insert_eq.
  - intros L U F -> -> -> HF. rewrite (truthy_nonempty _ HF).
    cbn [truthy String.eqb negb app fmap list_fmap length Nat.eqb].
    rewrite lookup_insert_eq. do 2 f_equal.
    cbn [String.concat]. rewrite !string_app_assoc. reflexivity.
Qed.

Lemma issue_url_params_clause_order_witness :
  IssueStream.get_url_params
    (IssueStream.mkConfig None (Some "2024-02-01") None None)
    None None !! "jql"
  = Some (PStr "(created<'2024-02-01' or updated<'2024-02-01')") /\
  IssueStream.get_url_params
    (IssueStream.mkConfig (Some "2024-01-01") (Some "2024-02-01") None
       (Some (IssueStream.mkStreamOptions
                (Some (IssueStream.mkIssuesOptions (Some "project = TAP"))))))
    None None !! "jql"
  = Some (PStr ("(created>='2024-01-01' or updated>='2024-01-01') and " +:+
                "(created<'2024-02-01' or updated<'2024-02-01') and " +:+
                "(project = TAP)")).
Proof.
  split.
  - exact (proj1 (issue_url_params_clause_order
                    (IssueStream.mkConfig None (Some "2024-02-01") None None)
                    None None)
             "2024-02-01" eq_refl eq_refl (or_introl eq_refl)).
  - apply (proj2 (issue_url_params_clause_order
                    (IssueStream.mkConfig (Some "2024-01-01")
                       (Some "2024-02-01") None
                       (Some (IssueStream.mkStreamOptions
                                (Some (IssueStream.mkIssuesOptions
                                         (Some "project = TAP"))))))
                    None None)
             "2024-01-01" "2024-02-01" "project = TAP");
      [reflexivity|reflexivity|reflexivity|discriminate].
Defined.

(** X7. For [IssueStream.get_url_params] a raw fragment set to the empty
    string is the same as no fragment: two configurations that agree on the
    bounds and the page size, one with the empty fragment and one with
    none, get the same parameters. *)
Theorem issue_url_params_empty_fragment_is_none
    (config config' : IssueStream.Config)
    (context : option (gmap string pyval)) (next_page_token : option Z) :
  IssueStream.start_date config = IssueStream.start_date config' ->
  IssueStream.end_date config = IssueStream.end_date config' ->
  IssueStream.page_size config = IssueStream.page_size config' ->
  IssueStream.config_jql config = Some "" ->
  IssueStream.config_jql config' = None ->
  IssueStream.get_url_params config context next_page_token
  = IssueStream.get_url_params config' context next_page_token.
Proof.
  intros Hs He Hp Hj Hj'. unfold IssueStream.get_url_params.
  rewrite Hs, He, Hp, Hj, Hj'. reflexivity.
Qed.

Lemma issue_url_params_empty_fragment_is_none_witness :
  IssueStream.get_url_params
    (IssueStream.mkConfig (Some "2024-01-01") None None
       (Some (IssueStream.mkStreamOptions
                (Some (IssueStream.mkIssuesOptions (Some ""))))))
    None (Some 50)
  = IssueStream.get_url_params
      (IssueStream.mkConfig (Some "2024-01-01") None None
         (Some (IssueStream.mkStreamOptions None)))
      None (Some 50).
Proof.
  apply (issue_url_params_empty_fragment_is_none
           (IssueStream.mkConfig (Some "2024-01-01") None None
              (Some (IssueStream.mkStreamOptions
                       (Some (IssueStream.mkIssuesOptions (Some ""))))))
           (IssueStream.mkConfig (Some "2024-01-01") None None
              (Some (IssueStream.mkStreamOptions None)))
           None (Some 50)); reflexivity.
Defined.

(** *** Post-processing: errors, composition with the contexts *)

Section child_post_process_facts.
Implicit Types (row ctx : gmap string pyval) (v : pyval).

Lemma issue_change_log_post_process_issue row ctx v :
  ctx !! "issue_id" = Some v ->
  IssueChangeLogStream.post_process row ctx = Ok (<["issueId" := v]> row).
Proof.
  intros Hi. unfold IssueChangeLogStream.post_process, getitem. by rewrite Hi.
Qed.

Lemma issue_comments_post_process_issue row ctx v :
  ctx !! "issue_id" = Some v ->
  IssueComments.post_process row ctx = Ok (<["issueId" := v]> row).
Proof.
  intros Hi. unfold IssueComments.post_process, getitem. by rewrite Hi.
Qed.

Lemma truthy_dict_nonempty ctx : ctx <> ∅ -> truthy (PDict ctx) = true.
Proof.
  intros Hne. simpl. destruct (size ctx) eqn:Hsz; [|reflexivity].
  by apply map_size_empty_iff in Hsz.
Qed.

End child_post_process_facts.

(** X8. [IssueStream.post_process] raises when the "fields" entry of the
    record is present but is not an object: [AttributeError] for null, a
    boolean, a number or a string, [TypeError] for an array. *)
Theorem issue_post_process_raises_on_non_object_fields
    (row : gmap string pyval) (context : option (gmap string pyval)) :
  (row !! "fields" = Some PNone \/
   (exists b, row !! "fields" = Some (PBool b)) \/
   (exists n, row !! "fields" = Some (PInt n)) \/
   (exists s, row !! "fields" = Some (PStr s)) ->
   IssueStream.post_process row context = Raise AttributeError) /\
  ((exists l, row !! "fields" = Some (PList l)) ->
   IssueStream.post_process row context = Raise TypeError).
Proof.
  unfold IssueStream.post_process, get. split.
  - by intros [-> | [[b ->] | [[n ->] | [s ->]]]].
  - by intros [l ->].
Qed.

Lemma issue_post_process_raises_on_non_object_fields_witness :
  IssueStream.post_process {[ "id" := PStr "10001"; "fields" := PNone ]} None
  = Raise AttributeError /\
  IssueStream.post_process
    {[ "id" := PStr "10001"; "fields" := PList [PStr "created"] ]} None
  = Raise TypeError.
Proof.
  split.
  - apply (proj1 (issue_post_process_raises_on_non_object_fields
                    {[ "id" := PStr "10001"; "fields" := PNone ]} None)).
    left. reflexivity.
  - apply (proj2 (issue_post_process_raises_on_non_object_fields
                    {[ "id" := PStr "10001";
                       "fields" := PList [PStr "created"] ]} None)).
    exists [PStr "created"]. reflexivity.
Defined.

(** X9. [IssueStream.post_process] leaves the "id" of the record alone, so
    the child context of a post-processed issue is the child context of the
    raw issue (the same [{"issue_id": id}], or the same [KeyError] when the
    record has no "id"). *)
Theorem issue_child_context_after_post_process
    (row row' : gmap string pyval)
    (context context' : option (gmap string pyval)) :
  IssueStream.post_process row context = Ok row' ->
  IssueStream.get_child_context row' context'
  = IssueStream.get_child_context row context'.
Proof.
  unfold IssueStream.post_process.
  destruct (pop_attr _ _ _) as [popped|e]; simpl; [|discriminate].
  intros [= <-]. unfold IssueStream.get_child_context, getitem.
  rewrite lookup_insert_ne by done.
  destruct (row !! "fields"); [by rewrite lookup_insert_ne|done].
Qed.

Lemma issue_child_context_after_post_process_witness :
  IssueStream.get_child_context
    {[ "id" := PStr "10001"; "fields" := PDict ∅;
       "created" := PStr "2024-01-01T00:00:00" ]} None
  = IssueStream.get_child_context
      {[ "id" := PStr "10001";
         "fields" := PDict {[ "created" := PStr "2024-01-01T00:00:00" ]} ]}
      None.
Proof.
  apply (issue_child_context_after_post_process
           {[ "id" := PStr "10001";
              "fields" := PDict {[ "created" := PStr "2024-01-01T00:00:00" ]} ]}
           {[ "id" := PStr "10001"; "fields" := PDict ∅;
              "created" := PStr "2024-01-01T00:00:00" ]}
           None None).
  reflexivity.
Defined.

(** X10. A sprint record post-processed under the context that
    [BoardStream.get_child_context] derives from a board record carries
    that board's "id" as its "boardId". *)
Theorem sprint_carries_board_id
    (board row ctx : gmap string pyval)
    (context : option (gmap string pyval)) :
  BoardStream.get_child_context board context = Ok ctx ->
  exists id,
    board !! "id" = Some id /\
    SprintStream.post_process row (Some ctx) = Ok (<["boardId" := id]> row).
Proof.
  unfold BoardStream.get_child_context, getitem.
  destruct (board !! "id") as [id|] eqn:Hid; simpl; [|discriminate].
  intros [= <-]. exists id. split; [done|].
  apply sprint_post_process_board. by rewrite lookup_singleton_eq.
Qed.

Lemma sprint_carries_board_id_witness :
  exists id,
    ({[ "id" := PInt 42; "name" := PStr "Team board" ]} : gmap string pyval)
      !! "id" = Some id /\
    SprintStream.post_process {[ "id" := PInt 7 ]}
      (Some {[ "board_id" := PInt 42 ]})
    = Ok (<["boardId" := id]> {[ "id" := PInt 7 ]}).
Proof.
  apply (sprint_carries_board_id
           {[ "id" := PInt 42; "name" := PStr "Team board" ]}
           {[ "id" := PInt 7 ]} {[ "board_id" := PInt 42 ]} None).
  reflexivity.
Defined.

(** X11. A watcher, change-log or comment record post-processed under the
    context that [IssueStream.get_child_context] derives from an issue
    record carries that issue's "id" as its "issueId". *)
Theorem issue_children_carry_issue_id
    (issue row ctx : gmap string pyval)
    (context : option (gmap string pyval)) :
  IssueStream.get_child_context issue context = Ok ctx ->
  exists id,
    issue !! "id" = Some id /\
    IssueWatchersStream.post_process row ctx = Ok (<["issueId" := id]> row) /\
    IssueChangeLogStream.post_process row ctx = Ok (<["issueId" := id]> row) /\
    IssueComments.post_process row ctx = Ok (<["issueId" := id]> row).
Proof.
  unfold IssueStream.get_child_context, getitem.
  destruct (issue !! "id") as [id|] eqn:Hid; simpl; [|discriminate].
  intros [= <-]. exists id. split; [done|].
  assert (({[ "issue_id" := id ]} : gmap string pyval) !! "issue_id" = Some id)
    as Hctx by by rewrite lookup_singleton_eq.
  split; [by apply issue_watchers_post_process_issue|].
  split; [by apply issue_change_log_post_process_issue|].
  by apply issue_comments_post_process_issue.
Qed.

Lemma issue_children_carry_issue_id_witness :
  exists id,
    ({[ "id" := PStr "10001"; "key" := PStr "TAP-1" ]} : gmap string pyval)
      !! "id" = Some id /\
    IssueWatchersStream.post_process {[ "accountId" := PStr "u1" ]}
      {[ "issue_id" := PStr "10001" ]}
    = Ok (<["issueId" := id]> {[ "accountId" := PStr "u1" ]}) /\
    IssueChangeLogStream.post_process {[ "accountId" := PStr "u1" ]}
      {[ "issue_id" := PStr "10001" ]}
    = Ok (<["issueId" := id]> {[ "accountId" := PStr "u1" ]}) /\
    IssueComments.post_process {[ "accountId" := PStr "u1" ]}
      {[ "issue_id" := PStr "10001" ]}
    = Ok (<["issueId" := id]> {[ "accountId" := PStr "u1" ]}).
Proof.
  apply (issue_children_carry_issue_id
           {[ "id" := PStr "10001"; "key" := PStr "TAP-1" ]}
           {[ "accountId" := PStr "u1" ]} {[ "issue_id" := PStr "10001" ]}
           None).
  reflexivity.
Defined.

(** X12. [SprintStream.post_process] returns the record unchanged when the
    context is [None] or the empty dict, and raises [KeyError] for
    "board_id" when the context is a non-empty dict without that key. *)
Theorem sprint_post_process_without_board
    (row ctx : gmap string pyval) :
  SprintStream.post_process row None = Ok row /\
  SprintStream.post_process row (Some ∅) = Ok row /\
  (ctx <> ∅ -> ctx !! "board_id" = None ->
   SprintStream.post_process row (Some ctx) = Raise (KeyError "board_id")).
Proof.
  split; [reflexivity|]. split; [reflexivity|].
  intros Hne Hb. unfold SprintStream.post_process, getitem.
  by rewrite (truthy_dict_nonempty _ Hne), Hb.
Qed.

Lemma sprint_post_process_without_board_witness :
  SprintStream.post_process {[ "id" := PInt 7 ]}
    (Some {[ "issue_id" := PStr "10001" ]})
  = Raise (KeyError "board_id").
Proof.
  apply (proj2 (proj2 (sprint_post_process_without_board
                         {[ "id" := PInt 7 ]}
                         {[ "issue_id" := PStr "10001" ]}))).
  - intros Heq.
    apply (f_equal (fun m : gmap string pyval => m !! "issue_id")) in Heq.
    vm_compute in Heq. discriminate Heq.
  - reflexivity.
Defined.

(** X13. [SprintStream.post_process] is idempotent under a fixed context:
    applied to a record it has returned, it returns that record again. *)
Theorem sprint_post_process_idempotent
    (row row' : gmap string pyval) (context : option (gmap string pyval)) :
  SprintStream.post_process row context = Ok row' ->
  SprintStream.post_process row' context = Ok row'.
Proof.
  unfold SprintStream.post_process, getitem.
  destruct context as [ctx|]; [|by intros [= <-]].
  destruct (truthy (PDict ctx)); [|by intros [= <-]].
  destruct (ctx !! "board_id") as [v|]; simpl; [|discriminate].
  intros [= <-]. by rewrite insert_insert_eq.
Qed.

Lemma sprint_post_process_idempotent_witness :
  SprintStream.post_process {[ "id" := PInt 7; "boardId" := PInt 42 ]}
    (Some {[ "board_id" := PInt 42 ]})
  = Ok {[ "id" := PInt 7; "boardId" := PInt 42 ]}.
Proof.
  apply (sprint_post_process_idempotent
           {[ "id" := PInt 7 ]} {[ "id" := PInt 7; "boardId" := PInt 42 ]}
           (Some {[ "board_id" := PInt 42 ]})).
  reflexivity.
Defined.

(** X14. The post-processing of the three child streams of issues raises
    [KeyError] for "issue_id" under any context without that key, the empty
    context included. *)
Theorem issue_children_need_issue_id (row ctx : gmap string pyval) :
  ctx !! "issue_id" = None ->
  IssueWatchersStream.post_process row ctx = Raise (KeyError "issue_id") /\
  IssueChangeLogStream.post_process row ctx = Raise (KeyError "issue_id") /\
  IssueComments.post_process row ctx = Raise (KeyError "issue_id").
Proof.
  intros Hi.
  unfold IssueWatchersStream.post_process, IssueChangeLogStream.post_process,
    IssueComments.post_process, getitem.
  by rewrite Hi.
Qed.

Lemma issue_children_need_issue_id_witness :
  IssueWatchersStream.post_process {[ "accountId" := PStr "u1" ]} ∅
  = Raise (KeyError "issue_id") /\
  IssueChangeLogStream.post_process {[ "accountId" := PStr "u1" ]} ∅
  = Raise (KeyError "issue_id") /\
  IssueComments.post_process {[ "accountId" := PStr "u1" ]} ∅
  = Raise (KeyError "issue_id").
Proof.
  apply (issue_children_need_issue_id {[ "accountId" := PStr "u1" ]} ∅).
  reflexivity.
Defined.

(** *** Flattening of the workflow identifier *)

(** X15. [WorkflowSearchStream.post_process] on a record whose "id" is an
    object: the returned record has no "id", its "name" and "entityId" are
    the entries of that object (null for an entry the object lacks), and
    every field other than "id", "name" and "entityId" is as it was. *)
Theorem workflow_search_post_process_flattens_id
    (row id_obj : gmap string pyval) (context : option (gmap string pyval)) :
  row !! "id" = Some (PDict id_obj) ->
  exists row',
    WorkflowSearchStream.post_process row context = Ok row' /\
    row' !! "id" = None /\
    row' !! "name" = Some (get id_obj "name" PNone) /\
    row' !! "entityId" = Some (get id_obj "entityId" PNone) /\
    (forall k, k <> "id" -> k <> "name" -> k <> "entityId" ->
       row' !! k = row !! k).
Proof.
  intros Hid. unfold WorkflowSearchStream.post_process. rewrite Hid.
  cbn [get_attr bind]. eexists. split; [reflexivity|].
  split; [by rewrite !lookup_insert_ne, lookup_delete_eq|].
  split; [by rewrite lookup_insert_ne, lookup_insert_eq|].
  split; [by rewrite lookup_insert_eq|].
  intros k Hk1 Hk2 Hk3. by rewrite !lookup_insert_ne, lookup_delete_ne.
Qed.

Lemma workflow_search_post_process_flattens_id_witness :
  exists row',
    WorkflowSearchStream.post_process
      {[ "id" := PDict {[ "name" := PStr "wf" ]};
         "description" := PStr "d"; "name" := PStr "stale" ]} None
    = Ok row' /\
    row' !! "id" = None /\
    row' !! "name"
    = Some (get ({[ "name" := PStr "wf" ]} : gmap string pyval) "name" PNone)
    /\
    row' !! "entityId"
    = Some (get ({[ "name" := PStr "wf" ]} : gmap string pyval)
              "entityId" PNone) /\
    (forall k, k <> "id" -> k <> "name" -> k <> "entityId" ->
       row' !! k
       = ({[ "id" := PDict {[ "name" := PStr "wf" ]};
             "description" := PStr "d"; "name" := PStr "stale" ]}
            : gmap string pyval) !! k).
Proof.
  apply (workflow_search_post_process_flattens_id
           {[ "id" := PDict {[ "name" := PStr "wf" ]};
              "description" := PStr "d"; "name" := PStr "stale" ]}
           {[ "name" := PStr "wf" ]} None).
  reflexivity.
Defined.

(** X16. [WorkflowSearchStream.post_process] is idempotent: applied to a
    record it has returned, under any context, it returns that record
    unchanged. *)
Theorem workflow_search_post_process_idempotent
    (row row' : gmap string pyval)
    (context context' : option (gmap string pyval)) :
  WorkflowSearchStream.post_process row context = Ok row' ->
  WorkflowSearchStream.post_process row' context' = Ok row'.
Proof.
  intros Hpp. apply workflow_search_post_process_no_id.
  revert Hpp. unfold WorkflowSearchStream.post_process.
  destruct (row !! "id") as [id_obj|] eqn:Hid; [|by intros [= <-]].
  destruct id_obj; cbn [get_attr bind]; try discriminate.
  intros [= <-]. by rewrite !lookup_insert_ne, lookup_delete_eq.
Qed.

Lemma workflow_search_post_process_idempotent_witness :
  WorkflowSearchStream.post_process
    {[ "name" := PStr "wf"; "entityId" := PStr "e1" ]} None
  = Ok {[ "name" := PStr "wf"; "entityId" := PStr "e1" ]}.
Proof.
  apply (workflow_search_post_process_idempotent
           {[ "id" := PDict {[ "name" := PStr "wf"; "entityId" := PStr "e1" ]} ]}
           {[ "name" := PStr "wf"; "entityId" := PStr "e1" ]} None None).
  reflexivity.
Defined.

(** X17. [WorkflowSearchStream.post_process] raises [AttributeError] when
    the "id" of the record is present but is not an object. *)
Theorem workflow_search_post_process_raises_on_non_object_id
    (row : gmap string pyval) (id_obj : pyval)
    (context : option (gmap string pyval)) :
  row !! "id" = Some id_obj ->
  (forall d, id_obj <> PDict d) ->
  WorkflowSearchStream.post_process row context = Raise AttributeError.
Proof.
  intros Hid Hobj. unfold WorkflowSearchStream.post_process. rewrite Hid.
  destruct id_obj; try reflexivity. by destruct (Hobj d).
Qed.

Lemma workflow_search_post_process_raises_on_non_object_id_witness :
  WorkflowSearchStream.post_process
    {[ "id" := PStr "wf-1"; "description" := PStr "d" ]} None
  = Raise AttributeError.
Proof.
  apply (workflow_search_post_process_raises_on_non_object_id
           {[ "id" := PStr "wf-1"; "description" := PStr "d" ]}
           (PStr "wf-1") None); [reflexivity|discriminate].
Defined.

(** *** Validation of other statuses and of other shapes of the body *)

Section substring_facts.
Implicit Types (s t pre post : string).

Lemma prefix_app s t : String.prefix s (s +:+ t) = true.
Proof.
  induction s as [|c s IH].
  - change ("" +:+ t) with t. by destruct t.
  - change (String c s +:+ t) with (String c (s +:+ t)).
    cbn [String.prefix]. by destruct (Ascii.ascii_dec c c).
Qed.

Lemma is_substring_app s pre post :
  is_substring s (pre +:+ s +:+ post) = true.
Proof.
  induction pre as [|c pre IH].
  - change ("" +:+ s +:+ post) with (s +:+ post).
    destruct (s +:+ post) eqn:Heq; cbn [is_substring];
      rewrite <- Heq, prefix_app; reflexivity.
  - change (String c pre +:+ s +:+ post) with (String c (pre +:+ s +:+ post)).
    cbn [is_substring]. rewrite IH. apply orb_true_r.
Qed.

End substring_facts.

(** X18. For a status other than 400, [SprintStream.validate_response] is
    the default validation, and the body is not looked at. *)
Theorem sprint_validate_response_other_status (response : Response) :
  status_code response <> 400 ->
  SprintStream.validate_response response
  = JiraStream.validate_response response /\
  (forall other_body,
     SprintStream.validate_response
       (mkResponse (status_code response) other_body)
     = SprintStream.validate_response response).
Proof.
  intros Hst. unfold SprintStream.validate_response.
  cbn [status_code]. apply Z.eqb_neq in Hst. rewrite Hst. cbn [bind].
  split; [reflexivity|]. intros other_body.
  unfold JiraStream.validate_response. reflexivity.
Qed.

Lemma sprint_validate_response_other_status_witness :
  SprintStream.validate_response (mkResponse 200 None)
  = JiraStream.validate_response (mkResponse 200 None) /\
  (forall other_body,
     SprintStream.validate_response
       (mkResponse (status_code (mkResponse 200 None)) other_body)
     = SprintStream.validate_response (mkResponse 200 None)).
Proof.
  apply (sprint_validate_response_other_status (mkResponse 200 None)).
  discriminate.
Defined.

(** X19. [SprintStream.validate_response] also accepts a 400 response whose
    "errorMessages" is not a list: a string that has "The board does not
    support sprints" as a substring, or an object that has it as a key; it
    returns without raising for both. *)
Theorem sprint_validate_response_400_non_list
    (response : Response) (doc : gmap string pyval) :
  status_code response = 400 ->
  body response = Some (PDict doc) ->
  (forall pre post,
     doc !! "errorMessages"
     = Some (PStr (pre +:+ "The board does not support sprints" +:+ post)) ->
     SprintStream.validate_response response = Ok tt) /\
  (forall d,
     doc !! "errorMessages" = Some (PDict d) ->
     is_Some (d !! "The board does not support sprints") ->
     SprintStream.validate_response response = Ok tt).
Proof.
  intros H400 Hbody. unfold SprintStream.validate_response, json.
  rewrite H400, Z.eqb_refl, Hbody. cbn [bind get_attr]. unfold get. split.
  - intros pre post ->. cbn [contains_str]. by rewrite is_substring_app.
  - intros d -> Hkey. cbn [contains_str]. by rewrite bool_decide_eq_true_2.
Qed.

Lemma sprint_validate_response_400_non_list_witness :
  SprintStream.validate_response
    (mkResponse 400
       (Some (PDict {[ "errorMessages" :=
                PStr "Error: The board does not support sprints." ]})))
  = Ok tt /\
  SprintStream.validate_response
    (mkResponse 400
       (Some (PDict {[ "errorMessages" :=
                PDict {[ "The board does not support sprints" := PNone ]} ]})))
  = Ok tt.
Proof.
  split.
  - apply (proj1 (sprint_validate_response_400_non_list
                    (mkResponse 400
                       (Some (PDict {[ "errorMessages" :=
                          PStr "Error: The board does not support sprints." ]})))
                    {[ "errorMessages" :=
                         PStr "Error: The board does not support sprints." ]}
                    eq_refl eq_refl)
             "Error: " ".").
    reflexivity.
  - apply (proj2 (sprint_validate_response_400_non_list
                    (mkResponse 400
                       (Some (PDict {[ "errorMessages" :=
                          PDict {[ "The board does not support sprints"
                                   := PNone ]} ]})))
                    {[ "errorMessages" :=
                         PDict {[ "The board does not support sprints"
                                  := PNone ]} ]}
                    eq_refl eq_refl)
             {[ "The board does not support sprints" := PNone ]}).
    + reflexivity.
    + by eexists.
Defined.

(** *** A post-processing step that raises *)

(** X20. The generator of [SprintStream.get_records] stops at the first
    record whose post-processing raises: it has emitted the post-processed
    records of the ones before it, ends with that exception, and looks at
    no later record. *)
Theorem sprint_get_records_stops_at_first_raise
    (pp : gmap string pyval -> option (gmap string pyval) ->
          result (option (gmap string pyval)))
    (before after : list (gmap string pyval)) (record : gmap string pyval)
    (context : option (gmap string pyval)) (e : pyexc) :
  Forall (fun r => ~ raises (pp r context)) before ->
  pp record context = Raise e ->
  SprintStream.get_records_with pp (before ++ record :: after) context
  = (omap (fun r => SprintStream.returned pp r context) before, Some e).
Proof.
  intros Hok Hraise.
  induction Hok as [|r before Hr _ IH]; simpl.
  - by rewrite Hraise.
  - unfold SprintStream.returned at 1.
    destruct (pp r context) as [[t|]|e']; simpl in *.
    + by rewrite IH.
    + exact IH.
    + by destruct Hr.
Qed.

Lemma sprint_get_records_stops_at_first_raise_witness :
  SprintStream.get_records_with
    (fun row ctx => let! r := SprintStream.post_process row ctx in Ok (Some r))
    ([] ++ {[ "id" := PInt 7 ]} :: [ {[ "id" := PInt 8 ]} ])
    (Some {[ "issue_id" := PStr "10001" ]})
  = ([], Some (KeyError "board_id")).
Proof.
  apply (sprint_get_records_stops_at_first_raise
           (fun row ctx =>
              let! r := SprintStream.post_process row ctx in Ok (Some r))
           [] [ {[ "id" := PInt 8 ]} ] {[ "id" := PInt 7 ]}
           (Some {[ "issue_id" := PStr "10001" ]}) (KeyError "board_id")).
  - constructor.
  - reflexivity.
Defined.

(** *** The fan-out at its edges *)

Section fan_out_edges.
Context {World : Type}.
Variable role_fetch project_fetch :
  World -> result (list (gmap string pyval)) * World.
Variable fetch :
  pyval -> pyval -> World -> result (list (gmap string pyval)) * World.

(** Once both parent lists are there, the result is the concatenation of
    what the sub-fetches returned. *)
Lemma get_records_after_parents (w w1 w2 : World)
    (A B : list (gmap string pyval)) :
  role_fetch w = (Ok B, w1) ->
  project_fetch w1 = (Ok A, w2) ->
  ProjectRoleActorStream.get_records role_fetch project_fetch fetch w
  = (Ok (concat
           (omap to_option
              (fst (ProjectRoleActorStream.sub_fetches fetch
                      (list_prod (ProjectRoleActorStream.ids A)
                                 (ProjectRoleActorStream.ids B)) w2)))),
     snd (ProjectRoleActorStream.sub_fetches fetch
            (list_prod (ProjectRoleActorStream.ids A)
                       (ProjectRoleActorStream.ids B)) w2)).
Proof.
  intros HB HA. unfold ProjectRoleActorStream.get_records. rewrite HB, HA.
  rewrite for_pid_sub_fetches. cbn [fst snd app].
  by rewrite reduce_iadd_concat.
Qed.

Lemma list_prod_nil_r {X Y} (l : list X) : list_prod l (@nil Y) = [].
Proof. induction l as [|x l IH]; [reflexivity|exact IH]. Qed.

(** Sub-fetches that neither read nor change the world. *)
Lemma sub_fetches_pure
    (f : pyval -> pyval -> result (list (gmap string pyval)))
    (combinations : list (pyval * pyval)) (w : World) :
  (forall pid role w0, fetch pid role w0 = (f pid role, w0)) ->
  ProjectRoleActorStream.sub_fetches fetch combinations w
  = ((fun c => f (fst c) (snd c)) <$> combinations, w).
Proof.
  intros Hpure. induction combinations as [|[pid role] cs IH]; [reflexivity|].
  cbn [ProjectRoleActorStream.sub_fetches]. rewrite Hpure. cbn [fst snd].
  rewrite IH. reflexivity.
Qed.

Lemma concat_returned_pairs
    (f : pyval -> pyval -> result (list (gmap string pyval)))
    (pid : pyval) (roles : list pyval) :
  concat (omap to_option ((fun c => f (fst c) (snd c)) <$> (pair pid <$> roles)))
  = flat_map (fun role => default [] (to_option (f pid role))) roles.
Proof.
  induction roles as [|role roles IH]; [reflexivity|].
  rewrite !fmap_cons. cbn [fst snd flat_map].
  rewrite <- IH.
  change (omap ?g (?x :: ?l)) with (from_option (fun y => y :: omap g l) (omap g l) (g x)).
  destruct (f pid role) as [l|e]; reflexivity.
Qed.

End fan_out_edges.

(** X21. Only the sub-fetches of [ProjectRoleActorStream.get_records] are
    protected: an exception raised while the project roles, or then the
    projects, are listed is raised by the method, on the world that failed
    request left, and no sub-fetch is made. *)
Theorem project_role_actor_parent_failure_propagates {World : Type}
    (project_role_get_records project_get_records :
       World -> result (list (gmap string pyval)) * World)
    (project_role_actor_get_records :
       pyval -> pyval -> World -> result (list (gmap string pyval)) * World)
    (w w1 : World) (e : pyexc) :
  (project_role_get_records w = (Raise e, w1) ->
   ProjectRoleActorStream.get_records
     project_role_get_records project_get_records
     project_role_actor_get_records w
   = (Raise e, w1)) /\
  (forall B w2,
     project_role_get_records w = (Ok B, w1) ->
     project_get_records w1 = (Raise e, w2) ->
     ProjectRoleActorStream.get_records
       project_role_get_records project_get_records
       project_role_actor_get_records w
     = (Raise e, w2)).
Proof.
  unfold ProjectRoleActorStream.get_records. split.
  - by intros ->.
  - intros B w2 -> ->. reflexivity.
Qed.

Lemma project_role_actor_parent_failure_propagates_witness :
  ProjectRoleActorStream.get_records
    (fun requests : nat => (Raise FatalAPIError, S requests))
    (fun requests : nat => (Ok [ {[ "id" := PStr "a1" ]} ], S requests))
    (fun pid role (requests : nat) => (Ok [], S requests))
    0%nat
  = (Raise FatalAPIError, 1%nat) /\
  ProjectRoleActorStream.get_records
    (fun requests : nat => (Ok [ {[ "id" := PInt 10 ]} ], S requests))
    (fun requests : nat => (Raise FatalAPIError, S requests))
    (fun pid role (requests : nat) => (Ok [], S requests))
    0%nat
  = (Raise FatalAPIError, 2%nat).
Proof.
  split.
  - apply (proj1 (project_role_actor_parent_failure_propagates
                    (fun requests : nat => (Raise FatalAPIError, S requests))
                    (fun requests : nat =>
                       (Ok [ {[ "id" := PStr "a1" ]} ], S requests))
                    (fun pid role (requests : nat) => (Ok [], S requests))
                    0%nat 1%nat FatalAPIError)).
    reflexivity.
  - apply (proj2 (project_role_actor_parent_failure_propagates
                    (fun requests : nat =>
                       (Ok [ {[ "id" := PInt 10 ]} ], S requests))
                    (fun requests : nat => (Raise FatalAPIError, S requests))
                    (fun pid role (requests : nat) => (Ok [], S requests))
                    0%nat 1%nat FatalAPIError)
             [ {[ "id" := PInt 10 ]} ] 2%nat); reflexivity.
Defined.

(** X22. When there is no project, or no project role,
    [ProjectRoleActorStream.get_records] returns the empty list and makes
    no sub-fetch: the world is the one the two listings left. *)
Theorem project_role_actor_no_combination {World : Type}
    (project_role_get_records project_get_records :
       World -> result (list (gmap string pyval)) * World)
    (project_role_actor_get_records :
       pyval -> pyval -> World -> result (list (gmap string pyval)) * World)
    (w w1 w2 : World) (A B : list (gmap string pyval)) :
  project_role_get_records w = (Ok B, w1) ->
  project_get_records w1 = (Ok A, w2) ->
  A = [] \/ B = [] ->
  ProjectRoleActorStream.get_records
    project_role_get_records project_get_records
    project_role_actor_get_records w
  = (Ok [], w2).
Proof.
  intros HB HA Hempty.
  rewrite (get_records_after_parents _ _ _ _ _ _ _ _ HB HA).
  destruct Hempty as [-> | ->]; [reflexivity|].
  unfold ProjectRoleActorStream.ids at 2 4. cbn [fmap list_fmap].
  by rewrite list_prod_nil_r.
Qed.

Lemma project_role_actor_no_combination_witness :
  ProjectRoleActorStream.get_records
    (fun requests : nat => (Ok [], S requests))
    (fun requests : nat =>
       (Ok [ {[ "id" := PStr "a1" ]}; {[ "id" := PStr "a2" ]} ], S requests))
    (fun pid role (requests : nat) =>
       (Ok [ {[ "name" := PStr "Developers" ]} ], S requests))
    0%nat
  = (Ok [], 2%nat).
Proof.
  apply (project_role_actor_no_combination
           (fun requests : nat => (Ok [], S requests))
           (fun requests : nat =>
              (Ok [ {[ "id" := PStr "a1" ]}; {[ "id" := PStr "a2" ]} ],
               S requests))
           (fun pid role (requests : nat) =>
              (Ok [ {[ "name" := PStr "Developers" ]} ], S requests))
           0%nat 1%nat 2%nat
           [ {[ "id" := PStr "a1" ]}; {[ "id" := PStr "a2" ]} ] []);
    [reflexivity|reflexivity|by right].
Defined.

(** X23. When the sub-fetches neither depend on nor change the world, so
    that the outcome for a project and a role is a function [f] of the two
    ids, [ProjectRoleActorStream.get_records] returns, for each project id
    in order and within it for each role id in order, the records of
    [f pid role] when it returned and nothing when it raised. *)
Theorem project_role_actor_stateless_fan_out {World : Type}
    (project_role_get_records project_get_records :
       World -> result (list (gmap string pyval)) * World)
    (project_role_actor_get_records :
       pyval -> pyval -> World -> result (list (gmap string pyval)) * World)
    (f : pyval -> pyval -> result (list (gmap string pyval)))
    (w w1 w2 : World) (A B : list (gmap string pyval)) :
  project_role_get_records w = (Ok B, w1) ->
  project_get_records w1 = (Ok A, w2) ->
  (forall pid role w0,
     project_role_actor_get_records pid role w0 = (f pid role, w0)) ->
  ProjectRoleActorStream.get_records
    project_role_get_records project_get_records
    project_role_actor_get_records w
  = (Ok (flat_map
           (fun pid =>
              flat_map (fun role => default [] (to_option (f pid role)))
                (ProjectRoleActorStream.ids B))
           (ProjectRoleActorStream.ids A)),
     w2).
Proof.
  intros HB HA Hpure.
  rewrite (get_records_after_parents _ _ _ _ _ _ _ _ HB HA).
  rewrite (sub_fetches_pure _ f _ _ Hpure). cbn [fst snd]. do 2 f_equal.
  induction (ProjectRoleActorStream.ids A) as [|pid pids IH]; [reflexivity|].
  cbn [list_prod flat_map].
  change (map (fun y => (pid, y)) (ProjectRoleActorStream.ids B))
    with (pair pid <$> ProjectRoleActorStream.ids B).
  rewrite fmap_app, omap_app, concat_app, IH.
  by rewrite concat_returned_pairs.
Qed.

Lemma project_role_actor_stateless_fan_out_witness :
  ProjectRoleActorStream.get_records
    (fun requests : nat =>
       (Ok [ {[ "id" := PInt 10 ]}; {[ "id" := PInt 20 ]} ], requests))
    (fun requests : nat =>
       (Ok [ {[ "id" := PStr "a1" ]}; {[ "id" := PStr "a2" ]} ], requests))
    (fun pid role (requests : nat) =>
       (match pid, role with
        | PStr "a1", PInt 20 => Raise FatalAPIError
        | _, _ => Ok [ {[ "project" := pid; "role" := role ]} ]
        end, requests))
    0%nat
  = (Ok [ {[ "project" := PStr "a1"; "role" := PInt 10 ]};
          {[ "project" := PStr "a2"; "role" := PInt 10 ]};
          {[ "project" := PStr "a2"; "role" := PInt 20 ]} ], 0%nat).
Proof.
  rewrite (project_role_actor_stateless_fan_out
             (fun requests : nat =>
                (Ok [ {[ "id" := PInt 10 ]}; {[ "id" := PInt 20 ]} ], requests))
             (fun requests : nat =>
                (Ok [ {[ "id" := PStr "a1" ]}; {[ "id" := PStr "a2" ]} ],
                 requests))
             (fun pid role (requests : nat) =>
                (match pid, role with
                 | PStr "a1", PInt 20 => Raise FatalAPIError
                 | _, _ => Ok [ {[ "project" := pid; "role" := role ]} ]
                 end, requests))
             (fun pid role =>
                match pid, role with
                | PStr "a1", PInt 20 => Raise FatalAPIError
                | _, _ => Ok [ {[ "project" := pid; "role" := role ]} ]
                end)
             0%nat 0%nat 0%nat
             [ {[ "id" := PStr "a1" ]}; {[ "id" := PStr "a2" ]} ]
             [ {[ "id" := PInt 10 ]}; {[ "id" := PInt 20 ]} ]
             eq_refl eq_refl (fun _ _ _ => eq_refl)).
  reflexivity.
Defined.

(** X24. [ProjectRoleActorStream.get_records] neither drops nor invents a
    record: a record is in the result exactly when it is in the list
    returned by one of the sub-fetches that returned. *)
Theorem project_role_actor_result_membership {World : Type}
    (project_role_get_records project_get_records :
       World -> result (list (gmap string pyval)) * World)
    (project_role_actor_get_records :
       pyval -> pyval -> World -> result (list (gmap string pyval)) * World)
    (w w1 w2 : World) (A B records : list (gmap string pyval))
    (record : gmap string pyval) :
  project_role_get_records w = (Ok B, w1) ->
  project_get_records w1 = (Ok A, w2) ->
  fst (ProjectRoleActorStream.get_records
         project_role_get_records project_get_records
         project_role_actor_get_records w)
  = Ok records ->
  record ∈ records <->
  exists fetched,
    Ok fetched ∈ fst (ProjectRoleActorStream.sub_fetches
                         project_role_actor_get_records
                         (list_prod (ProjectRoleActorStream.ids A)
                                    (ProjectRoleActorStream.ids B)) w2) /\
    record ∈ fetched.
Proof.
  intros HB HA.
  rewrite (get_records_after_parents _ _ _ _ _ _ _ _ HB HA). cbn [fst].
  intros [= <-]. rewrite list_elem_of_In, in_concat. split.
  - intros (fetched & Hin & Hrec). exists fetched.
    apply list_elem_of_In, list_elem_of_omap in Hin as (r & Hr & Hsome).
    destruct r as [l|e]; simplify_eq/=. split; [done|].
    by apply list_elem_of_In.
  - intros (fetched & Hin & Hrec). exists fetched. split.
    + apply list_elem_of_In, list_elem_of_omap. by exists (Ok fetched).
    + by apply list_elem_of_In.
Qed.

Lemma project_role_actor_result_membership_witness :
  ({[ "name" := PStr "Developers" ]} : gmap string pyval)
    ∈ [ ({[ "name" := PStr "Developers" ]} : gmap string pyval) ] <->
  exists fetched,
    Ok fetched
      ∈ fst (ProjectRoleActorStream.sub_fetches
               (fun pid role (requests : nat) =>
                  match role with
                  | PInt 20 => (Raise FatalAPIError, S requests)
                  | _ => (Ok [ {[ "name" := PStr "Developers" ]} ], S requests)
                  end)
               (list_prod
                  (ProjectRoleActorStream.ids [ {[ "id" := PStr "a1" ]} ])
                  (ProjectRoleActorStream.ids
                     [ {[ "id" := PInt 10 ]}; {[ "id" := PInt 20 ]} ]))
               2%nat) /\
    ({[ "name" := PStr "Developers" ]} : gmap string pyval) ∈ fetched.
Proof.
  apply (project_role_actor_result_membership
           (fun requests : nat =>
              (Ok [ {[ "id" := PInt 10 ]}; {[ "id" := PInt 20 ]} ], S requests))
           (fun requests : nat => (Ok [ {[ "id" := PStr "a1" ]} ], S requests))
           (fun pid role (requests : nat) =>
              match role with
              | PInt 20 => (Raise FatalAPIError, S requests)
              | _ => (Ok [ {[ "name" := PStr "Developers" ]} ], S requests)
              end)
           0%nat 1%nat 2%nat
           [ {[ "id" := PStr "a1" ]} ]
           [ {[ "id" := PInt 10 ]}; {[ "id" := PInt 20 ]} ]
           [ {[ "name" := PStr "Developers" ]} ]
           {[ "name" := PStr "Developers" ]}); reflexivity.
Defined.
